(** * productImageFetcherRH: the image fetcher, embedded and verified

    A shallow embedding of [image_fetcher.py].  Python [str] values are
    Rocq [string]s: a character is a code point below 256, which is
    enough for every literal the program compares against.  The pure
    helpers ([find_column], [safe_filename], [guess_extension], the two
    token patterns of [get_vqd]) are total functions.  The driver is
    written in state-passing style over the operator's remaining input
    lines, a counter of the requests issued so far and the trace of
    observable events; the network is an oracle of the run. *)

From Stdlib Require Import String Ascii List ZArith NArith Bool Lia DecimalString.
Import ListNotations.

Local Open Scope string_scope.
Local Open Scope list_scope.

(* ===================================================================== *)
(** * Part I: definitions                                                *)
(* ===================================================================== *)

(** ** Python string primitives *)

Module PyStr.

Definition code (c : ascii) : N := N_of_ascii c.

Definition between (lo hi : N) (c : ascii) : bool :=
  ((lo <=? code c) && (code c <=? hi))%N.

(** [str.isspace] on one character: TAB..CR, FS..US, SPACE, NEL, NBSP. *)
Definition isspace (c : ascii) : bool :=
  between 9 13 c || between 28 32 c
  || (code c =? 133)%N || (code c =? 160)%N.

(** [str.lower] on one character: A-Z, and the Latin-1 capitals
    (all of 0xC0..0xDE but the multiplication sign 0xD7). *)
Definition lower_char (c : ascii) : ascii :=
  if between 65 90 c
     || (between 192 222 c && negb (code c =? 215)%N)
  then ascii_of_N (code c + 32)
  else c.

Fixpoint lower (s : string) : string :=
  match s with
  | EmptyString => EmptyString
  | String c r => String (lower_char c) (lower r)
  end.

Definition is_empty (s : string) : bool :=
  match s with EmptyString => true | String _ _ => false end.

(** [s.lstrip(chars)], the set of characters given as a predicate. *)
Fixpoint lstrip (p : ascii -> bool) (s : string) : string :=
  match s with
  | EmptyString => EmptyString
  | String c r => if p c then lstrip p r else s
  end.

(** [s.rstrip(chars)]: a character is dropped when it is in the set
    and everything after it has been dropped. *)
Fixpoint rstrip (p : ascii -> bool) (s : string) : string :=
  match s with
  | EmptyString => EmptyString
  | String c r =>
      let r' := rstrip p r in
      if is_empty r' && p c then EmptyString else String c r'
  end.

Definition strip_chars (p : ascii -> bool) (s : string) : string :=
  rstrip p (lstrip p s).

(** [s.strip()] *)
Definition strip (s : string) : string := strip_chars isspace s.

(** [s.startswith(p)] *)
Fixpoint startswith (p s : string) : bool :=
  match p, s with
  | EmptyString, _ => true
  | String _ _, EmptyString => false
  | String a p', String b s' => Ascii.eqb a b && startswith p' s'
  end.

(** [p in s] for two strings: [p] occurs in [s] as a substring. *)
Fixpoint contains (p s : string) : bool :=
  startswith p s
  || match s with
     | EmptyString => false
     | String _ r => contains p r
     end.

Fixpoint drop (n : nat) (s : string) : string :=
  match n, s with
  | O, _ => s
  | S _, EmptyString => EmptyString
  | S n', String _ r => drop n' r
  end.

Fixpoint take (n : nat) (s : string) : string :=
  match n, s with
  | O, _ => EmptyString
  | S _, EmptyString => EmptyString
  | S n', String c r => String c (take n' r)
  end.

(** The longest prefix of characters satisfying [p], and what follows. *)
Fixpoint span (p : ascii -> bool) (s : string) : string * string :=
  match s with
  | EmptyString => (EmptyString, EmptyString)
  | String c r =>
      if p c then let (a, b) := span p r in (String c a, b)
      else (EmptyString, s)
  end.

(** [x in xs] for a list of strings. *)
Definition mem (x : string) (xs : list string) : bool :=
  existsb (String.eqb x) xs.

(** [xs.index(x)]; [None] stands for the [ValueError] of a missing [x]. *)
Fixpoint index (x : string) (xs : list string) : option nat :=
  match xs with
  | [] => None
  | y :: r => if String.eqb x y then Some O else option_map S (index x r)
  end.

(** [str(n)] for an [int]. *)
Definition str_of_Z (z : Z) : string := NilZero.string_of_int (Z.to_int z).

(** Truth value of a string: non-empty. *)
Definition truthy (s : string) : bool := negb (is_empty s).

End PyStr.

(** ** Column Resolver *)

(** [find_column(headers, candidates)], lines 27-36.  The first loop is
    [first_exact], the second (the [enumerate] over the lowered headers)
    is [first_containing], started at index 0. *)

Fixpoint first_exact (lowered candidates : list string) : option nat :=
  match candidates with
  | [] => None
  | candidate :: rest =>
      if PyStr.mem candidate lowered then PyStr.index candidate lowered
      else first_exact lowered rest
  end.

Fixpoint first_containing (index : nat) (lowered candidates : list string)
  : option nat :=
  match lowered with
  | [] => None
  | header :: rest =>
      if existsb (fun candidate => PyStr.contains candidate header) candidates
      then Some index
      else first_containing (S index) rest candidates
  end.

Definition find_column (headers candidates : list string) : option nat :=
  let lowered := map PyStr.lower headers in
  match first_exact lowered candidates with
  | Some i => Some i
  | None => first_containing 0 lowered candidates
  end.

Definition sku_candidates : list string := ["sku"; "item sku"; "item_sku"].
Definition name_candidates : list string :=
  ["name"; "product name"; "product_name"; "title"].

(** ** Filenames and extensions *)

(** The character class [[A-Za-z0-9._-]]. *)
Definition allowed (c : ascii) : bool :=
  PyStr.between 65 90 c || PyStr.between 97 122 c || PyStr.between 48 57 c
  || Ascii.eqb c "." || Ascii.eqb c "_" || Ascii.eqb c "-".

(** [re.sub(r"[^A-Za-z0-9._-]+", "_", s)]: every maximal run of
    characters outside the class becomes one underscore.  [in_run] tells
    that the previous character was already part of the current run. *)
Fixpoint sub_runs (in_run : bool) (s : string) : string :=
  match s with
  | EmptyString => EmptyString
  | String c r =>
      if allowed c then String c (sub_runs false r)
      else if in_run then sub_runs true r
      else String "_" (sub_runs true r)
  end.

Definition is_underscore (c : ascii) : bool := Ascii.eqb c "_".

(** [safe_filename(name)], lines 78-80. *)
Definition safe_filename (name : string) : string :=
  let name := sub_runs false (PyStr.strip name) in
  let stripped := PyStr.strip_chars is_underscore name in
  if PyStr.truthy stripped then stripped else "image".

(** The alternatives of the URL pattern, in the order the pattern
    tries them. *)
Definition ext_alternatives : list string :=
  ["jpg"; "jpeg"; "png"; "gif"; "webp"].

Definition newline : ascii := ascii_of_N 10.

(** The tail [(?:$|\?)] of the URL pattern, tried on the text that
    follows the extension: a question mark, or the end of the string
    ([$] also matches just before a final newline). *)
Definition at_end_or_query (rest : string) : bool :=
  match rest with
  | EmptyString => true
  | String c r =>
      Ascii.eqb c "?" || (Ascii.eqb c newline && PyStr.is_empty r)
  end.

(** One alternative, case-insensitively, then the tail; the matched
    group keeps the case of the text. *)
Definition match_alt (alt rest : string) : option string :=
  if PyStr.startswith alt (PyStr.lower rest)
     && at_end_or_query (PyStr.drop (String.length alt) rest)
  then Some (PyStr.take (String.length alt) rest)
  else None.

Fixpoint match_alts (alts : list string) (rest : string) : option string :=
  match alts with
  | [] => None
  | alt :: more =>
      match match_alt alt rest with
      | Some m => Some m
      | None => match_alts more rest
      end
  end.

(** The whole pattern anchored at the head of [s]. *)
Definition match_ext_here (s : string) : option string :=
  match s with
  | String c rest =>
      if Ascii.eqb c "." then match_alts ext_alternatives rest else None
  | EmptyString => None
  end.

(** [re.search(r"\.(jpg|jpeg|png|gif|webp)(?:$|\?)", url, re.IGNORECASE)]:
    group 1 of the leftmost match. *)
Fixpoint search_ext (s : string) : option string :=
  match match_ext_here s with
  | Some m => Some m
  | None =>
      match s with
      | EmptyString => None
      | String _ r => search_ext r
      end
  end.

(** The [if content_type:] block of [guess_extension]; [None] when it
    falls through. *)
Definition extension_of_content_type (content_type : option string)
  : option string :=
  match content_type with
  | Some ct =>
      if PyStr.truthy ct then
        if PyStr.contains "jpeg" ct then Some ".jpg"
        else if PyStr.contains "png" ct then Some ".png"
        else if PyStr.contains "webp" ct then Some ".webp"
        else if PyStr.contains "gif" ct then Some ".gif"
        else None
      else None
  | None => None
  end.

(** [guess_extension(url, content_type)], lines 83-97. *)
Definition guess_extension (url : string) (content_type : option string)
  : string :=
  match extension_of_content_type content_type with
  | Some e => e
  | None =>
      match search_ext url with
      | Some m =>
          let ext := PyStr.lower m in
          if String.eqb ext "jpeg" then ".jpg" else "." ++ ext
      | None => ".jpg"
      end
  end.

(** ** The part of [pathlib] the downloader relies on *)

Module Pathlib.

(** A path is its sequence of components; the empty sequence is the
    path [.], whose name is empty. *)
Definition path := list string.

(** [p / name] for a [name] without separator: an empty or a
    single-dot component is dropped. *)
Definition joinpath (p : path) (name : string) : path :=
  if String.eqb name "" || String.eqb name "." then p else p ++ [name].

(** [p.name] *)
Definition name (p : path) : string := last p "".

(** [s.rfind(c)], [None] for -1. *)
Fixpoint rfind (c : ascii) (s : string) : option nat :=
  match s with
  | EmptyString => None
  | String a r =>
      match rfind c r with
      | Some i => Some (S i)
      | None => if Ascii.eqb a c then Some O else None
      end
  end.

(** [PurePath.suffix] of a name: from the last dot on, when that dot
    is neither the first nor the last character. *)
Definition suffix (nm : string) : string :=
  match rfind "." nm with
  | Some i =>
      if ((0 <? i) && (S i <? String.length nm))%nat then PyStr.drop i nm
      else ""
  | None => ""
  end.

(** [PurePath.stem] *)
Definition stem (nm : string) : string :=
  PyStr.take (String.length nm - String.length (suffix nm)) nm.

(** [p.with_suffix(sfx)]; [None] stands for its [ValueError] (an
    invalid suffix, or a path with an empty name). *)
Definition with_suffix (p : path) (sfx : string) : option path :=
  if PyStr.contains "/" sfx
     || (PyStr.truthy sfx && negb (PyStr.startswith "." sfx))
     || String.eqb sfx "."
  then None
  else if PyStr.is_empty (name p) then None
  else Some (removelast p ++ [(stem (name p) ++ sfx)%string]).

End Pathlib.

(** ** Token extraction *)

(** One of the two patterns of [get_vqd] anchored at the head of [s]:
    the literal [opening], a non-empty greedy run of characters other
    than [closing], then [closing].  The run being maximal, the match
    succeeds exactly when the run is non-empty and something follows. *)
Definition match_token (opening : string) (closing : ascii) (s : string)
  : option string :=
  if PyStr.startswith opening s then
    let (tok, after) :=
      PyStr.span (fun c => negb (Ascii.eqb c closing))
                 (PyStr.drop (String.length opening) s) in
    if PyStr.truthy tok && PyStr.truthy after then Some tok else None
  else None.

(** [re.search] of such a pattern: group 1 of the leftmost match. *)
Fixpoint search_token (opening : string) (closing : ascii) (s : string)
  : option string :=
  match match_token opening closing s with
  | Some t => Some t
  | None =>
      match s with
      | EmptyString => None
      | String _ r => search_token opening closing r
      end
  end.

(** The two searches of [get_vqd], lines 47-52: [vqd='([^']+)'], then
    [vqd=([^&]+)&]. *)
Definition extract_vqd (text : string) : option string :=
  match search_token "vqd='" "'" text with
  | Some t => Some t
  | None => search_token "vqd=" "&" text
  end.

(** ** Values the driver handles *)

(** A spreadsheet cell as [iter_rows(values_only=True)] yields it.  Of a
    value that is neither [None], a string, an integer nor a boolean (a
    float, a date) the driver only uses the truth value and [str()];
    [CObj] carries these two. *)
Inductive cell : Type :=
| CNone
| CStr (s : string)
| CInt (z : Z)
| CBool (b : bool)
| CObj (truth : bool) (text : string).

(** [bool(value)] *)
Definition cell_truthy (v : cell) : bool :=
  match v with
  | CNone => false
  | CStr s => PyStr.truthy s
  | CInt z => negb (z =? 0)%Z
  | CBool b => b
  | CObj truth _ => truth
  end.

(** [str(value)] *)
Definition cell_str (v : cell) : string :=
  match v with
  | CNone => "None"
  | CStr s => s
  | CInt z => PyStr.str_of_Z z
  | CBool b => if b then "True" else "False"
  | CObj _ text => text
  end.

(** [row[index] if index < len(row) else None] *)
Definition cell_at (index : nat) (row : list cell) : cell :=
  nth index row CNone.

(** One entry of the provider's result list, through the three
    [result.get(...)] the driver performs; [None] is a missing key. *)
Record search_result : Type := {
  r_image : option string;
  r_title : option string;
  r_url : option string
}.

(** Truth value of the result of a [dict.get]. *)
Definition opt_truthy (o : option string) : bool :=
  match o with Some s => PyStr.truthy s | None => false end.

(** [result.get("title") or result.get("url") or ""] *)
Definition source_of (r : search_result) : string :=
  match r_title r with
  | Some t => if PyStr.truthy t then t else
                match r_url r with
                | Some u => if PyStr.truthy u then u else ""
                | None => ""
                end
  | None => match r_url r with
            | Some u => if PyStr.truthy u then u else ""
            | None => ""
            end
  end.

(** [xs[:m]] with Python's treatment of a negative bound. *)
Definition slice_to {A : Type} (m : Z) (xs : list A) : list A :=
  if (m <? 0)%Z
  then firstn (Z.to_nat (Z.max 0 (Z.of_nat (List.length xs) + m))) xs
  else firstn (Z.to_nat m) xs.

(** ** The environment of a run *)

Record request : Type := {
  req_url : string;
  req_params : list (string * string);
  req_timeout : nat
}.

(** What [data.get("results", [])] can be, as far as the slice of line
    75 tells: a list of result objects, or a value that cannot be
    sliced ([null], a number, a boolean, an object). *)
Inductive results_value : Type :=
| RList (l : list search_result)
| RUnsliceable.

(** What [response.json()] can be, as far as line 74 tells: an object,
    through its [results] key ([None] when it has none), or any other
    JSON value. *)
Inductive json_value : Type :=
| JObject (results : option results_value)
| JOther.

(** What a request that was answered carries.  [json] is the decoded
    body, [None] when the body is no JSON. *)
Record response : Type := {
  status : nat;
  content_type : option string;
  body : string;
  json : option json_value
}.

(** [response.json().get("results", [])] when that is a list. *)
Definition json_results (r : response) : option (list search_result) :=
  match json r with
  | Some (JObject (Some (RList l))) => Some l
  | Some (JObject None) => Some []
  | _ => None
  end.

Inductive reply : Type :=
| NoReply (reason : string)
| Reply (r : response).

Inductive exn : Type :=
| EOFError
| StopIteration
| RuntimeError (msg : string)
| RequestException (msg : string)
| HTTPError (code : nat)
| JSONDecodeError
| ValueError (msg : string)
| AttributeError
| TypeError
| OSError (msg : string).

Inductive result (A : Type) : Type :=
| Ok (a : A)
| Raise (e : exn).
Arguments Ok {A} a.
Arguments Raise {A} e.

(** The lines the program prints, by the statement that prints them. *)
Inductive line : Type :=
| InputNotFound                                   (* line 146 *)
| ColumnsMissing                                  (* line 154 *)
| HeadersFound (headers : list string)            (* line 158 *)
| SkippingRow (row_number : nat)                  (* line 169 *)
| Searching (sku name : string)                   (* line 175 *)
| FetchFailed (sku : string) (e : exn)            (* line 180 *)
| NoResults                                       (* line 184 *)
| Candidate (index total : nat) (url : string)    (* line 193 *)
| Source (source : string)                        (* line 195 *)
| PleaseAnswer                                    (* line 116 *)
| DownloadFailed (e : exn)                        (* line 202 *)
| Saved (p : Pathlib.path)                        (* line 106 *)
| NoSelection.                                    (* line 207 *)

Inductive event : Type :=
| Print (l : line)
| PrintErr (l : line)
| Input (prompt : string)
| Get (r : request)
| Mkdir (p : Pathlib.path)
| WriteBytes (p : Pathlib.path) (content : string).

(** The environment covers what the driver handles: the rows of a
    workbook that can be read, the answers of the network, result
    entries that are JSON objects, and whether a file can be written.  A
    workbook [openpyxl] cannot read, an output directory that cannot be
    made and result entries that are no objects are outside it. *)

(** What is fixed for a run: the workbook behind [--input] ([None] when
    the path does not exist; otherwise its rows, header row first), the
    network, which answers the [n]-th request of the run, and the file
    system: [write_error n p] is the reason for which, after [n]
    requests, the file [p] cannot be opened for writing (a name too
    long, a missing directory), [None] when it can. *)
Record world : Type := {
  input_file : option (list (list cell));
  http : nat -> request -> reply;
  write_error : nat -> Pathlib.path -> option string
}.

Record args : Type := {
  output_dir : Pathlib.path;
  max_results : Z
}.

(** What changes during a run: the lines the operator has yet to type,
    the number of requests issued, the events so far (oldest first). *)
Record state : Type := {
  stdin : list string;
  requests : nat;
  trace : list event
}.

Definition emit (e : event) (st : state) : state :=
  {| stdin := stdin st; requests := requests st; trace := trace st ++ [e] |}.

Definition print (l : line) (st : state) : state := emit (Print l) st.

(** [session.get(...)] *)
Definition session_get (w : world) (r : request) (st : state)
  : reply * state :=
  (http w (requests st) r,
   {| stdin := stdin st; requests := S (requests st);
      trace := trace st ++ [Get r] |}).

(** [session.get(...)] followed by [response.raise_for_status()]. *)
Definition get_checked (w : world) (r : request) (st : state)
  : result response * state :=
  let (rep, st1) := session_get w r st in
  match rep with
  | NoReply reason => (Raise (RequestException reason), st1)
  | Reply resp =>
      if ((400 <=? status resp) && (status resp <? 600))%nat
      then (Raise (HTTPError (status resp)), st1)
      else (Ok resp, st1)
  end.

(** ** Search Client *)

(** The request of lines 40-45. *)
Definition root_request (query : string) : request :=
  {| req_url := "https://duckduckgo.com/";
     req_params := [("q", query)];
     req_timeout := 30 |}.

(** The request of lines 58-71. *)
Definition images_request (query vqd : string) : request :=
  {| req_url := "https://duckduckgo.com/i.js";
     req_params := [("l", "us-en"); ("o", "json"); ("q", query);
                    ("vqd", vqd); ("f", ",,,"); ("p", "1")];
     req_timeout := 30 |}.

(** The request of line 101. *)
Definition download_request (url : string) : request :=
  {| req_url := url; req_params := []; req_timeout := 60 |}.

Definition token_missing : exn :=
  RuntimeError "Could not find vqd token for search query.".

(** [get_vqd(query, session)], lines 39-53. *)
Definition get_vqd (w : world) (query : string) (st : state)
  : result string * state :=
  let (r, st1) := get_checked w (root_request query) st in
  match r with
  | Raise e => (Raise e, st1)
  | Ok resp =>
      match search_token "vqd='" "'" (body resp) with
      | Some t => (Ok t, st1)
      | None =>
          match search_token "vqd=" "&" (body resp) with
          | Some t => (Ok t, st1)
          | None => (Raise token_missing, st1)
          end
      end
  end.

(** Lines 73-75 on the answer of the image request: [response.json()]
    raises on a body that is no JSON, [data.get] on a value that is no
    object, the slice on results that cannot be sliced. *)
Definition read_results (max : Z) (resp : response)
  : result (list search_result) :=
  match json resp with
  | None => Raise JSONDecodeError
  | Some JOther => Raise AttributeError
  | Some (JObject found) =>
      let results := match found with
                     | Some v => v
                     | None => RList []
                     end in
      match results with
      | RList l => Ok (slice_to max l)
      | RUnsliceable => Raise TypeError
      end
  end.

(** [fetch_image_results(query, max_results, session)], lines 56-75. *)
Definition fetch_image_results (w : world) (query : string) (max : Z)
  (st : state) : result (list search_result) * state :=
  let (v, st1) := get_vqd w query st in
  match v with
  | Raise e => (Raise e, st1)
  | Ok vqd =>
      let (r, st2) := get_checked w (images_request query vqd) st1 in
      match r with
      | Raise e => (Raise e, st2)
      | Ok resp => (read_results max resp, st2)
      end
  end.

(** ** Downloader *)

Definition empty_name : exn :=
  ValueError "PosixPath('.') has an empty name".

(** [download_image(url, destination, session)], lines 100-106. *)
Definition download_image (w : world) (url : string)
  (destination : Pathlib.path) (st : state) : result unit * state :=
  let (r, st1) := get_checked w (download_request url) st in
  match r with
  | Raise e => (Raise e, st1)
  | Ok resp =>
      let extension := guess_extension url (content_type resp) in
      match Pathlib.with_suffix destination extension with
      | None => (Raise empty_name, st1)
      | Some output_path =>
          match write_error w (requests st1) output_path with
          | Some reason => (Raise (OSError reason), st1)
          | None =>
              (Ok tt, print (Saved output_path)
                        (emit (WriteBytes output_path (body resp)) st1))
          end
      end
  end.

(** ** Interactive Selector *)

(** [input(prompt).strip().lower()] applied to the line read. *)
Definition answer_of (l : string) : string := PyStr.lower (PyStr.strip l).

Definition question : string := "Download this image? (y/n): ".

(** The [while True] of [prompt_yes_no], lines 109-116, by recursion on
    the lines left on standard input; [input] raises [EOFError] when
    none is left. *)
Fixpoint prompt_loop (prompt : string) (lines : list string)
  (tr : list event) : result bool * list string * list event :=
  match lines with
  | [] => (Raise EOFError, [], tr ++ [Input prompt])
  | l :: rest =>
      let answer := answer_of l in
      if PyStr.mem answer ["y"; "yes"] then (Ok true, rest, tr ++ [Input prompt])
      else if PyStr.mem answer ["n"; "no"]
           then (Ok false, rest, tr ++ [Input prompt])
           else prompt_loop prompt rest
                            (tr ++ [Input prompt; Print PleaseAnswer])
  end.

Definition prompt_yes_no (prompt : string) (st : state)
  : result bool * state :=
  match prompt_loop prompt (stdin st) (trace st) with
  | (r, lines, tr) =>
      (r, {| stdin := lines; requests := requests st; trace := tr |})
  end.

(** ** Driver *)

(** [result.get("image")] is truthy, and its value then. *)
Definition presentable (r : search_result) : bool := opt_truthy (r_image r).

Definition image_of (r : search_result) : string :=
  match r_image r with Some u => u | None => "" end.

(** The [for index, result in enumerate(results, start=1)] loop, lines
    188-204.  The value is the final [accepted]. *)
Fixpoint review (w : world) (a : args) (sku : string) (total index : nat)
  (results : list search_result) (st : state) : result bool * state :=
  match results with
  | [] => (Ok false, st)
  | r :: rest =>
      if negb (presentable r) then
        review w a sku total (S index) rest st
      else
        let url := image_of r in
        let source := source_of r in
        let st1 := print (Candidate index total url) st in
        let st2 := if PyStr.truthy source then print (Source source) st1
                   else st1 in
        match prompt_yes_no question st2 with
        | (Raise e, st3) => (Raise e, st3)
        | (Ok true, st3) =>
            let filename := safe_filename sku in
            let destination := Pathlib.joinpath (output_dir a) filename in
            match download_image w url destination st3 with
            | (Raise exc, st4) => (Ok true, print (DownloadFailed exc) st4)
            | (Ok _, st4) => (Ok true, st4)
            end
        | (Ok false, st3) => review w a sku total (S index) rest st3
        end
  end.

(** The body of the row loop, lines 166-207. *)
Definition process_row (w : world) (a : args) (sku_index name_index : nat)
  (row_number : nat) (row : list cell) (st : state) : result unit * state :=
  let sku_value := cell_at sku_index row in
  let name_value := cell_at name_index row in
  if negb (cell_truthy sku_value) || negb (cell_truthy name_value) then
    (Ok tt, print (SkippingRow row_number) st)
  else
    let sku := PyStr.strip (cell_str sku_value) in
    let name := PyStr.strip (cell_str name_value) in
    let query := name in
    let st1 := print (Searching sku name) st in
    match fetch_image_results w query (max_results a) st1 with
    | (Raise exc, st2) => (Ok tt, print (FetchFailed sku exc) st2)
    | (Ok results, st2) =>
        match results with
        | [] => (Ok tt, print NoResults st2)
        | _ :: _ =>
            match review w a sku (List.length results) 1 results st2 with
            | (Raise e, st3) => (Raise e, st3)
            | (Ok accepted, st3) =>
                if negb accepted then (Ok tt, print NoSelection st3)
                else (Ok tt, st3)
            end
        end
    end.

(** [for row_number, row in enumerate(rows, start=2)], line 165. *)
Fixpoint run_rows (w : world) (a : args) (sku_index name_index : nat)
  (row_number : nat) (rows : list (list cell)) (st : state)
  : result unit * state :=
  match rows with
  | [] => (Ok tt, st)
  | row :: rest =>
      match process_row w a sku_index name_index row_number row st with
      | (Raise e, st1) => (Raise e, st1)
      | (Ok _, st1) =>
          run_rows w a sku_index name_index (S row_number) rest st1
      end
  end.

(** The header comprehension of [load_rows], line 23. *)
Definition header_of (value : cell) : string :=
  match value with
  | CNone => ""
  | _ => PyStr.strip (cell_str value)
  end.

(** How [main] ends: with a return value, which becomes the exit code,
    or with an exception nothing catches. *)
Inductive ending : Type :=
| Returned (code : Z)
| Uncaught (e : exn).

(** [main()], lines 119-209. *)
Definition main (w : world) (a : args) (st : state) : ending * state :=
  match input_file w with
  | None => (Returned 1, emit (PrintErr InputNotFound) st)
  | Some [] => (Uncaught StopIteration, st)
  | Some (first :: rows) =>
      let headers := map header_of first in
      let sku_index := find_column headers sku_candidates in
      let name_index := find_column headers name_candidates in
      match sku_index, name_index with
      | Some sku_index, Some name_index =>
          let st1 := emit (Mkdir (output_dir a)) st in
          match run_rows w a sku_index name_index 2 rows st1 with
          | (Raise e, st2) => (Uncaught e, st2)
          | (Ok _, st2) => (Returned 0, st2)
          end
      | _, _ =>
          (Returned 1,
           emit (PrintErr (HeadersFound headers))
                (emit (PrintErr ColumnsMissing) st))
      end
  end.

(** The state a run starts from. *)
Definition initial (lines : list string) : state :=
  {| stdin := lines; requests := 0; trace := [] |}.

(** ** Vocabulary of the statements *)

(** Every character of a string passes a test. *)
Fixpoint all_chars (q : ascii -> bool) (s : string) : bool :=
  match s with
  | EmptyString => true
  | String c r => q c && all_chars q r
  end.

(** No character of a string passes a test. *)
Definition none_of (p : ascii -> bool) (s : string) : bool :=
  all_chars (fun c => negb (p c)) s.

(** [p] occurs in [s]. *)
Definition substring_of (p s : string) : Prop :=
  exists a b, s = (a ++ p ++ b)%string.

(** [i] is the first position of [l] whose element satisfies [P]. *)
Definition first_at {A : Type} (P : A -> Prop) (l : list A) (i : nat) : Prop :=
  (exists h, nth_error l i = Some h /\ P h)
  /\ forall j h, j < i -> nth_error l j = Some h -> ~ P h.

(** Some candidate occurs in the header [h]. *)
Definition holds_candidate (candidates : list string) (h : string) : Prop :=
  exists c, In c candidates /\ substring_of c h.

(** The URL reads [p], a dot, [m], [r], where [m] is one of the known
    extensions in any case and [r] is empty, a final newline, or starts
    the query string. *)
Definition ext_match (url p m r : string) : Prop :=
  url = (p ++ "." ++ m ++ r)%string
  /\ In (PyStr.lower m) ext_alternatives
  /\ at_end_or_query r = true.

(** The text reads [a], [opening], a non-empty [t] free of [closing],
    [closing], [b]. *)
Definition token_match (opening : string) (closing : ascii)
  (s a t b : string) : Prop :=
  s = (a ++ opening ++ t ++ String closing b)%string
  /\ t <> ""%string
  /\ all_chars (fun c => negb (Ascii.eqb c closing)) t = true.

(** The requests, the candidate URLs shown, the files written and the
    lines printed, in a trace. *)
Definition gets (tr : list event) : list request :=
  flat_map (fun e => match e with Get r => [r] | _ => [] end) tr.

Definition shown (tr : list event) : list string :=
  flat_map (fun e => match e with
                     | Print (Candidate _ _ url) => [url]
                     | _ => []
                     end) tr.

Definition writes (tr : list event) : list (Pathlib.path * string) :=
  flat_map (fun e => match e with
                     | WriteBytes p content => [(p, content)]
                     | _ => []
                     end) tr.

Definition printed (tr : list event) : list line :=
  flat_map (fun e => match e with Print l => [l] | _ => [] end) tr.

(** The field of a row is empty or absent. *)
Definition field_missing (index : nat) (row : list cell) : Prop :=
  List.length row <= index
  \/ nth_error row index = Some CNone
  \/ nth_error row index = Some (CStr "").

(** The field of a row holds the number 0 or the boolean False. *)
Definition field_zero_or_false (index : nat) (row : list cell) : Prop :=
  nth_error row index = Some (CInt 0)
  \/ nth_error row index = Some (CBool false).

(** The status passes [raise_for_status]. *)
Definition status_ok (r : response) : Prop :=
  status r < 400 \/ 600 <= status r.

(** The operator's line is a yes, a no. *)
Definition says_yes (l : string) : Prop :=
  answer_of l = "y" \/ answer_of l = "yes".

Definition says_no (l : string) : Prop :=
  answer_of l = "n" \/ answer_of l = "no".

(** The events of showing a candidate and reading the answer. *)
Definition presenting (e : event) : Prop :=
  match e with
  | Print (Candidate _ _ _) | Print (Source _) | Input _ => True
  | _ => False
  end.


(** The two fatal configurations: no input file, or a workbook whose
    header row lacks the SKU or the name column. *)
Definition config_error (w : world) : Prop :=
  input_file w = None
  \/ exists first rows,
       input_file w = Some (first :: rows)
       /\ (find_column (map header_of first) sku_candidates = None
           \/ find_column (map header_of first) name_candidates = None).

(** The line is one of the four answers [prompt_yes_no] accepts. *)
Definition recognized (l : string) : bool :=
  PyStr.mem (answer_of l) ["y"; "yes"] || PyStr.mem (answer_of l) ["n"; "no"].



(** The exception lines 73-75 raise on an answer whose results they
    cannot read: the body is no JSON, the JSON is no object, or its
    results cannot be sliced. *)
Definition json_failure (r : response) : exn :=
  match json r with
  | None => JSONDecodeError
  | Some JOther => AttributeError
  | Some (JObject _) => TypeError
  end.


(** ** Sample runs *)

(** A workbook with the columns [SKU] and [Name], a provider whose root
    page carries a token and whose result list is [results], and image
    hosts that all answer [image]. *)
Definition sample_page : response :=
  {| status := 200; content_type := Some "text/html";
     body := "<script>var q='widget';vqd='4-1234';</script>";
     json := None |}.

Definition sample_http (page : response) (results : list search_result)
  (image : reply) : nat -> request -> reply :=
  fun _ r =>
    if String.eqb (req_url r) "https://duckduckgo.com/" then Reply page
    else if String.eqb (req_url r) "https://duckduckgo.com/i.js"
         then Reply {| status := 200;
                       content_type := Some "application/json";
                       body := "{...}";
                       json := Some (JObject (Some (RList results))) |}
         else image.

Definition sample_header : list cell := [CStr "SKU"; CStr "Name"].

Definition sample_world (rows : list (list cell)) (page : response)
  (results : list search_result) (image : reply) : world :=
  {| input_file := Some (sample_header :: rows);
     http := sample_http page results image;
     write_error := fun _ _ => None |}.

Definition sample_args : args :=
  {| output_dir := ["downloaded_images"]; max_results := 5 |}.

Definition candidate (url : string) : search_result :=
  {| r_image := Some url; r_title := Some "a title"; r_url := None |}.

Definition five_candidates : list search_result :=
  [candidate "http://img/1.png"; candidate "http://img/2.png";
   candidate "http://img/3.png"; candidate "http://img/4.png";
   candidate "http://img/5"].

Definition jpeg_image : reply :=
  Reply {| status := 200; content_type := Some "image/jpeg";
           body := "JFIF"; json := None |}.

Definition gone : reply :=
  Reply {| status := 404; content_type := Some "text/html";
           body := "Not Found"; json := None |}.

Definition page_without_token : response :=
  {| status := 200; content_type := Some "text/html";
     body := "<html>vqd=&; vqd='' </html>"; json := None |}.

(** ** Vocabulary of the further properties *)

Definition first_char (s : string) : option ascii :=
  match s with
  | EmptyString => None
  | String c _ => Some c
  end.

Fixpoint last_char (s : string) : option ascii :=
  match s with
  | EmptyString => None
  | String c r =>
      match last_char r with
      | Some d => Some d
      | None => Some c
      end
  end.

(** What a recognized line decides. *)
Definition decision (l : string) : bool :=
  PyStr.mem (answer_of l) ["y"; "yes"].

(** The events of the lines [prompt_yes_no] reads and does not
    recognize: each is read, then answered by the reminder. *)
Definition reprompts (q : string) (junk : list string) : list event :=
  flat_map (fun _ : string => [Input q; Print PleaseAnswer]) junk.

(** The [n]-th request of the run, [req], is answered with a status
    that passes [raise_for_status]; or fails with [e]. *)
Definition answered (w : world) (n : nat) (req : request) (resp : response)
  : Prop :=
  http w n req = Reply resp /\ status_ok resp.

Definition refused (w : world) (n : nat) (req : request) (e : exn) : Prop :=
  (exists reason, http w n req = NoReply reason
                  /\ e = RequestException reason)
  \/ (exists resp, http w n req = Reply resp
                   /\ 400 <= status resp < 600
                   /\ e = HTTPError (status resp)).

(** [t] is the token of the leftmost place where the pattern matches. *)
Definition leftmost_token (opening : string) (closing : ascii)
  (s t : string) : Prop :=
  exists a b,
    token_match opening closing s a t b
    /\ forall a' t' b', token_match opening closing s a' t' b' ->
                        String.length a <= String.length a'.

(** The token [get_vqd] is to find on a page: the leftmost quoted one,
    or, when the page has no quoted one, the leftmost unquoted one. *)
Definition page_token (text t : string) : Prop :=
  leftmost_token "vqd='" "'" text t
  \/ ((forall a x b, ~ token_match "vqd='" "'" text a x b)
      /\ leftmost_token "vqd=" "&" text t).

Definition on_stderr (e : event) : Prop :=
  match e with PrintErr _ => True | _ => False end.

(** The candidate lines of a result list numbered from [index]: one for
    each result with an image, under the number of its place in the
    whole list. *)
Fixpoint candidate_lines (total index : nat) (results : list search_result)
  : list line :=
  match results with
  | [] => []
  | r :: rest =>
      if presentable r
      then Candidate index total (image_of r)
             :: candidate_lines total (S index) rest
      else candidate_lines total (S index) rest
  end.

Definition candidates_printed (tr : list event) : list line :=
  flat_map (fun e => match e with
                     | Print (Candidate i t u) => [Candidate i t u]
                     | _ => []
                     end) tr.

(** The event is a request. *)
Definition is_get (e : event) : Prop :=
  match e with Get _ => True | _ => False end.

(** The event is a line on standard output or a read of standard
    input. *)
Definition talk (e : event) : Prop :=
  match e with Print _ | Input _ => True | _ => False end.

(** The number of data rows of the workbook of a run. *)
Definition data_rows (w : world) : nat :=
  match input_file w with
  | Some (_ :: rows) => List.length rows
  | _ => 0
  end.

Definition mkdirs (tr : list event) : list Pathlib.path :=
  flat_map (fun e => match e with Mkdir p => [p] | _ => [] end) tr.

(* ===================================================================== *)
(** * Part II: properties                                                *)
(* ===================================================================== *)

(** ** The definitions on concrete inputs *)

Example lower_mixed : PyStr.lower "Item SKU" = "item sku".
Proof. reflexivity. Qed.

Example strip_both_ends : PyStr.strip "  ab c  " = "ab c".
Proof. reflexivity. Qed.

Example find_column_exact_beats_substring :
  find_column ["Product Name"; "Item SKU"; "SKU"] sku_candidates = Some 2.
Proof. reflexivity. Qed.

Example find_column_substring_fallback :
  find_column ["Product Name (EN)"; "Our SKU code"] sku_candidates = Some 1
  /\ find_column ["Product Name (EN)"; "Our SKU code"] name_candidates = Some 0.
Proof. split; reflexivity. Qed.

Example find_column_not_found :
  find_column ["Code"; "Label"] sku_candidates = None.
Proof. reflexivity. Qed.

Example safe_filename_runs : safe_filename "__a/_/b__ " = "a___b".
Proof. reflexivity. Qed.

Example safe_filename_keeps_dots : safe_filename "ABC.123" = "ABC.123".
Proof. reflexivity. Qed.

Example guess_extension_leftmost :
  guess_extension "http://x/img.JPEG?x=a.png" None = ".jpg"
  /\ guess_extension "http://x/img.jpgx?x=a.PnG" None = ".png"
  /\ guess_extension "http://x/a.png?" (Some "image/PNG") = ".png"
  /\ guess_extension "http://x/a.jpge" None = ".jpg".
Proof. repeat split; reflexivity. Qed.

Example extract_vqd_patterns :
  extract_vqd "x;vqd='4-123';y" = Some "4-123"
  /\ extract_vqd "x?vqd=4-123&y=vqd=''" = Some "4-123"
  /\ extract_vqd "x?vqd=&y=vqd=''" = None.
Proof. repeat split; reflexivity. Qed.

Example with_suffix_cases :
  Pathlib.with_suffix ["out"; "ABC.123"] ".jpg" = Some ["out"; "ABC.jpg"]
  /\ Pathlib.with_suffix ["out"; ".hid"] ".jpg" = Some ["out"; ".hid.jpg"]
  /\ Pathlib.with_suffix ["out"; "a."] ".jpg" = Some ["out"; "a..jpg"]
  /\ Pathlib.with_suffix ["out"; "a.b.c"] ".jpg" = Some ["out"; "a.b.jpg"]
  /\ Pathlib.with_suffix [] ".jpg" = None.
Proof. repeat split; reflexivity. Qed.

Example slice_to_cases :
  slice_to 5 [1; 2] = [1; 2] /\ slice_to 0 [1; 2; 3] = []
  /\ slice_to (-1) [1; 2; 3; 4; 5] = [1; 2; 3; 4]
  /\ slice_to (-5) [1; 2; 3] = [].
Proof. repeat split; reflexivity. Qed.

Example prompt_reprompts :
  prompt_yes_no question (initial ["maybe"; " YES "; "n"])
  = (Ok true, {| stdin := ["n"]; requests := 0;
                 trace := [Input question; Print PleaseAnswer;
                           Input question] |}).
Proof. reflexivity. Qed.

Example prompt_end_of_input :
  fst (prompt_yes_no question (initial ["maybe"])) = Raise EOFError.
Proof. reflexivity. Qed.

(** A full run: one row, the first candidate refused, the second
    accepted and saved. *)
Example run_saves_second_candidate :
  main (sample_world [[CStr "A/B C*D"; CStr " Widget "]] sample_page
                     five_candidates jpeg_image)
       sample_args (initial ["n"; "y"])
  = (Returned 0,
     {| stdin := []; requests := 3;
        trace := [Mkdir ["downloaded_images"];
                  Print (Searching "A/B C*D" "Widget");
                  Get (root_request "Widget");
                  Get (images_request "Widget" "4-1234");
                  Print (Candidate 1 5 "http://img/1.png");
                  Print (Source "a title");
                  Input question;
                  Print (Candidate 2 5 "http://img/2.png");
                  Print (Source "a title");
                  Input question;
                  Get (download_request "http://img/2.png");
                  WriteBytes ["downloaded_images"; "A_B_C_D.jpg"] "JFIF";
                  Print (Saved ["downloaded_images"; "A_B_C_D.jpg"])] |}).
Proof. reflexivity. Qed.

(** A cell of blanks is neither empty nor absent: the row is searched,
    with an empty query. *)
Example blank_name_is_searched :
  gets (trace (snd (process_row
                      (sample_world [] sample_page [] jpeg_image) sample_args
                      0 1 2 [CStr "ABC-123"; CStr "   "] (initial []))))
  = [root_request ""; images_request "" "4-1234"].
Proof. reflexivity. Qed.

(** ** Strings *)

Section StringFacts.

Variable p : ascii -> bool.

Lemma lstrip_none s : none_of p s = true -> PyStr.lstrip p s = s.
Proof.
  destruct s as [|c r]; simpl; [reflexivity|].
  unfold none_of; simpl. intros H. apply andb_true_iff in H as [Hc _].
  apply negb_true_iff in Hc. now rewrite Hc.
Qed.

Lemma rstrip_none s : none_of p s = true -> PyStr.rstrip p s = s.
Proof.
  induction s as [|c r IH]; simpl; [reflexivity|].
  unfold none_of; simpl. intros H. apply andb_true_iff in H as [Hc Hr].
  apply negb_true_iff in Hc. rewrite Hc, andb_false_r.
  now rewrite (IH Hr).
Qed.

Lemma rstrip_idem s : PyStr.rstrip p (PyStr.rstrip p s) = PyStr.rstrip p s.
Proof.
  induction s as [|c r IH]; simpl; [reflexivity|].
  destruct (PyStr.is_empty (PyStr.rstrip p r) && p c) eqn:E; simpl.
  - reflexivity.
  - rewrite IH, E. reflexivity.
Qed.

(** What [rstrip] leaves starts like its argument. *)
Lemma lstrip_rstrip_head s :
  PyStr.lstrip p s = s -> PyStr.lstrip p (PyStr.rstrip p s) = PyStr.rstrip p s.
Proof.
  destruct s as [|c r]; simpl; [reflexivity|].
  destruct (p c) eqn:Hc.
  - intros H. exfalso.
    assert (L : forall t, String.length (PyStr.lstrip p t) <= String.length t).
    { induction t as [|d t IHt]; simpl; [lia|].
      destruct (p d); simpl; lia. }
    specialize (L r). rewrite H in L. simpl in L. lia.
  - intros _. rewrite andb_false_r. simpl. now rewrite Hc.
Qed.

Lemma lstrip_idem s : PyStr.lstrip p (PyStr.lstrip p s) = PyStr.lstrip p s.
Proof.
  induction s as [|c r IH]; simpl; [reflexivity|].
  destruct (p c) eqn:Hc; [exact IH|]. simpl. now rewrite Hc.
Qed.

Lemma strip_chars_idem s :
  PyStr.strip_chars p (PyStr.strip_chars p s) = PyStr.strip_chars p s.
Proof.
  unfold PyStr.strip_chars.
  rewrite (lstrip_rstrip_head (PyStr.lstrip p s) (lstrip_idem s)).
  apply rstrip_idem.
Qed.

Lemma strip_chars_none s : none_of p s = true -> PyStr.strip_chars p s = s.
Proof.
  intros H. unfold PyStr.strip_chars.
  rewrite (lstrip_none s H). now apply rstrip_none.
Qed.

Lemma all_chars_lstrip q s :
  all_chars q s = true -> all_chars q (PyStr.lstrip p s) = true.
Proof.
  induction s as [|c r IH]; simpl; [reflexivity|].
  intros H. apply andb_true_iff in H as [Hc Hr].
  destruct (p c); [now apply IH|]. simpl. now rewrite Hc, Hr.
Qed.

Lemma all_chars_rstrip q s :
  all_chars q s = true -> all_chars q (PyStr.rstrip p s) = true.
Proof.
  induction s as [|c r IH]; simpl; [reflexivity|].
  intros H. apply andb_true_iff in H as [Hc Hr].
  destruct (PyStr.is_empty (PyStr.rstrip p r) && p c); [reflexivity|].
  simpl. now rewrite Hc, IH.
Qed.

Lemma all_chars_strip_chars q s :
  all_chars q s = true -> all_chars q (PyStr.strip_chars p s) = true.
Proof.
  intros H. unfold PyStr.strip_chars.
  now apply all_chars_rstrip, all_chars_lstrip.
Qed.

End StringFacts.

Lemma all_chars_weaken (q q' : ascii -> bool) s :
  (forall c, q c = true -> q' c = true) ->
  all_chars q s = true -> all_chars q' s = true.
Proof.
  intros W. induction s as [|c r IH]; simpl; [reflexivity|].
  intros H. apply andb_true_iff in H as [Hc Hr].
  now rewrite (W c Hc), IH.
Qed.

(** ** Filename sanitization *)

Lemma allowed_not_space c : allowed c = true -> negb (PyStr.isspace c) = true.
Proof.
  destruct c as [[] [] [] [] [] [] [] []]; vm_compute; congruence.
Qed.

Lemma allowed_underscore : allowed "_" = true.
Proof. reflexivity. Qed.

Lemma sub_runs_allowed b s : all_chars allowed (sub_runs b s) = true.
Proof.
  revert b. induction s as [|c r IH]; intros b; simpl; [reflexivity|].
  destruct (allowed c) eqn:Hc; simpl.
  - now rewrite Hc, IH.
  - destruct b; [apply IH|].
    change (allowed "_" && all_chars allowed (sub_runs true r) = true).
    now rewrite allowed_underscore, IH.
Qed.

Lemma sub_runs_fixed b s : all_chars allowed s = true -> sub_runs b s = s.
Proof.
  revert b. induction s as [|c r IH]; intros b; simpl; [reflexivity|].
  intros H. apply andb_true_iff in H as [Hc Hr].
  now rewrite Hc, (IH false Hr).
Qed.

(** The two shapes a sanitized name can take. *)
Lemma safe_filename_shape x :
  safe_filename x = "image"
  \/ (PyStr.truthy (safe_filename x) = true
      /\ all_chars allowed (safe_filename x) = true
      /\ PyStr.strip_chars is_underscore (safe_filename x) = safe_filename x).
Proof.
  unfold safe_filename.
  set (t := PyStr.strip_chars is_underscore (sub_runs false (PyStr.strip x))).
  destruct (PyStr.truthy t) eqn:Ht; [right|left; reflexivity].
  repeat split.
  - exact Ht.
  - apply all_chars_strip_chars, sub_runs_allowed.
  - apply strip_chars_idem.
Qed.

(** C4. Sanitizing a name twice gives what sanitizing it once gives, for
    every string; [A/B C*D] becomes [A_B_C_D], and a name of which
    nothing is left becomes the literal [image]. *)
Theorem safe_filename_idempotent :
  (forall x, safe_filename (safe_filename x) = safe_filename x)
  /\ safe_filename "A/B C*D" = "A_B_C_D"
  /\ (forall x,
        PyStr.strip_chars is_underscore (sub_runs false (PyStr.strip x)) = ""
        -> safe_filename x = "image")
  /\ safe_filename "" = "image"
  /\ safe_filename " /?_ " = "image".
Proof.
  split; [|split; [reflexivity|split; [|split; reflexivity]]].
  - intros x.
    destruct (safe_filename_shape x) as [E|(Ht & Ha & Hs)].
    + rewrite E. reflexivity.
    + set (r := safe_filename x) in *.
      unfold safe_filename at 1.
      assert (Hsp : PyStr.strip r = r).
      { apply strip_chars_none. unfold none_of.
        eapply all_chars_weaken; [|exact Ha].
        intros c. apply allowed_not_space. }
      rewrite Hsp, (sub_runs_fixed false r Ha), Hs, Ht. reflexivity.
  - intros x H. unfold safe_filename. now rewrite H.
Qed.

Lemma safe_filename_idempotent_witness :
  safe_filename (safe_filename " A/B C*D ") = safe_filename " A/B C*D "
  /\ safe_filename " //  " = "image".
Proof.
  split.
  - apply (proj1 safe_filename_idempotent).
  - apply (proj1 (proj2 (proj2 safe_filename_idempotent)) " //  ").
    reflexivity.
Defined.

(** ** Column Resolver *)

Lemma startswith_spec p s :
  PyStr.startswith p s = true <-> exists b, s = (p ++ b)%string.
Proof.
  revert s. induction p as [|a p IH]; intros s; simpl.
  - split; [intros _; now exists s|reflexivity].
  - destruct s as [|c s]; simpl.
    + split; [discriminate|intros [b Hb]; discriminate].
    + rewrite andb_true_iff, Ascii.eqb_eq, IH. split.
      * intros [-> [b ->]]. now exists b.
      * intros [b Hb]. injection Hb as -> ->. split; [reflexivity|now exists b].
Qed.

Lemma contains_spec p s : PyStr.contains p s = true <-> substring_of p s.
Proof.
  unfold substring_of. induction s as [|c r IH].
  - simpl. rewrite orb_false_r, startswith_spec. split.
    + intros [b Hb]. now exists "", b.
    + intros (a & b & H). destruct a; [now exists b|discriminate].
  - cbn [PyStr.contains]. rewrite orb_true_iff, startswith_spec, IH. split.
    + intros [[b Hb]|(a & b & ->)].
      * now exists "", b.
      * now exists (String c a), b.
    + intros (a & b & H). destruct a as [|d a].
      * left. now exists b.
      * right. injection H as -> ->. now exists a, b.
Qed.

Lemma mem_spec x l : PyStr.mem x l = true <-> In x l.
Proof.
  unfold PyStr.mem. rewrite existsb_exists. split.
  - intros (y & Hy & E). apply String.eqb_eq in E. now subst.
  - intros H. exists x. split; [exact H|apply String.eqb_refl].
Qed.

Lemma equal_is_substring c : substring_of c c.
Proof.
  exists "", "". simpl. induction c as [|a c IH]; simpl; [reflexivity|].
  now rewrite <- IH.
Qed.

Lemma first_at_here {A} (P : A -> Prop) h l : P h -> first_at P (h :: l) 0.
Proof.
  intros H. split; [now exists h|]. intros j k Hj. lia.
Qed.

Lemma first_at_later {A} (P : A -> Prop) h l i :
  ~ P h -> first_at P l i -> first_at P (h :: l) (S i).
Proof.
  intros N [E L]. split; [exact E|].
  intros [|j] k Hj Hk; simpl in Hk.
  - now injection Hk as <-.
  - apply (L j); [lia|exact Hk].
Qed.

Lemma first_at_inv {A} (P : A -> Prop) h l i :
  first_at P (h :: l) i ->
  (i = 0 /\ P h) \/ (exists j, i = S j /\ ~ P h /\ first_at P l j).
Proof.
  intros [(k & Hk & Pk) L]. destruct i as [|j].
  - left. simpl in Hk. injection Hk as ->. now split.
  - right. exists j. split; [reflexivity|]. split.
    + apply (L 0 h); [lia|reflexivity].
    + split; [now exists k|].
      intros m y Hm Hy. apply (L (S m) y); [lia|exact Hy].
Qed.

Lemma first_at_unique {A} (P : A -> Prop) l i j :
  first_at P l i -> first_at P l j -> i = j.
Proof.
  intros [(h & Hh & Ph) Li] [(k & Hk & Pk) Lj].
  destruct (Nat.lt_trichotomy i j) as [L|[E|L]]; [|exact E|].
  - exfalso. exact (Lj i h L Hh Ph).
  - exfalso. exact (Li j k L Hk Pk).
Qed.

Lemma index_spec x l : In x l -> exists i, PyStr.index x l = Some i /\ first_at (eq x) l i.
Proof.
  induction l as [|y r IH]; simpl; [intros []|].
  intros H. destruct (String.eqb x y) eqn:E.
  - apply String.eqb_eq in E. exists 0. split; [reflexivity|].
    now apply first_at_here.
  - apply String.eqb_neq in E. destruct H as [H|H]; [congruence|].
    destruct (IH H) as (i & Hi & Fi). exists (S i). rewrite Hi. split; [reflexivity|].
    now apply first_at_later.
Qed.

(** The exact pass: the first candidate that is a header decides. *)
Lemma first_exact_found lowered pre c post :
  (forall c', In c' pre -> ~ In c' lowered) -> In c lowered ->
  exists i, first_exact lowered (pre ++ c :: post) = Some i
            /\ first_at (eq c) lowered i.
Proof.
  intros Hpre Hc. induction pre as [|d pre IH]; simpl.
  - destruct (PyStr.mem c lowered) eqn:M.
    + now apply index_spec.
    + apply mem_spec in Hc. congruence.
  - destruct (PyStr.mem d lowered) eqn:M.
    + apply mem_spec in M. exfalso. apply (Hpre d); [now left|exact M].
    + apply IH. intros c' H. apply Hpre. now right.
Qed.

Lemma first_exact_none lowered candidates :
  first_exact lowered candidates = None <->
  forall c, In c candidates -> ~ In c lowered.
Proof.
  induction candidates as [|d cs IH]; simpl.
  - split; [intros _ c []|reflexivity].
  - destruct (PyStr.mem d lowered) eqn:M.
    + apply mem_spec in M. split.
      * intros H. destruct (index_spec d lowered M) as (i & Hi & _). congruence.
      * intros H. exfalso. apply (H d); [now left|exact M].
    + rewrite IH. split.
      * intros H c [->|Hc]; [|now apply H].
        intros Hin. apply mem_spec in Hin. congruence.
      * intros H c Hc. apply H. now right.
Qed.

Lemma holds_candidate_spec candidates h :
  existsb (fun c => PyStr.contains c h) candidates = true
  <-> holds_candidate candidates h.
Proof.
  unfold holds_candidate. rewrite existsb_exists.
  split; intros (c & Hc & H); exists c; (split; [exact Hc|]);
    now apply contains_spec.
Qed.

(** The substring pass: the first header holding a candidate decides. *)
Lemma first_containing_spec k lowered candidates i :
  first_containing k lowered candidates = Some i <->
  exists j, i = k + j /\ first_at (holds_candidate candidates) lowered j.
Proof.
  revert k. induction lowered as [|h r IH]; intros k; simpl.
  - split; [discriminate|].
    intros (j & _ & (y & Hy & _) & _). destruct j; discriminate.
  - destruct (existsb _ candidates) eqn:E.
    + apply holds_candidate_spec in E. split.
      * intros H. injection H as <-. exists 0. split; [lia|].
        now apply first_at_here.
      * intros (j & -> & F). apply first_at_inv in F as [[-> _]|(m & _ & N & _)].
        -- f_equal. lia.
        -- contradiction.
    + assert (N : ~ holds_candidate candidates h).
      { intros H. apply holds_candidate_spec in H. congruence. }
      rewrite IH. split.
      * intros (j & -> & F). exists (S j). split; [lia|].
        now apply first_at_later.
      * intros (j & -> & F). apply first_at_inv in F as [[_ H]|(m & -> & _ & F)].
        -- contradiction.
        -- exists m. split; [lia|exact F].
Qed.

Lemma first_containing_none k lowered candidates :
  first_containing k lowered candidates = None <->
  forall h, In h lowered -> ~ holds_candidate candidates h.
Proof.
  revert k. induction lowered as [|h r IH]; intros k; simpl.
  - split; [intros _ h []|reflexivity].
  - destruct (existsb _ candidates) eqn:E.
    + apply holds_candidate_spec in E. split; [discriminate|].
      intros H. exfalso. apply (H h); [now left|exact E].
    + rewrite IH. split.
      * intros H y [<-|Hy]; [|now apply H].
        intros C. apply holds_candidate_spec in C. congruence.
      * intros H y Hy. apply H. now right.
Qed.

Lemma first_at_map_lower (c : string) headers i :
  first_at (fun h => PyStr.lower h = c) headers i ->
  first_at (eq c) (map PyStr.lower headers) i.
Proof.
  intros [(h & Hh & E) L]. split.
  - exists (PyStr.lower h). split; [|now symmetry].
    rewrite nth_error_map, Hh. reflexivity.
  - intros j y Hj Hy. rewrite nth_error_map in Hy.
    destruct (nth_error headers j) as [z|] eqn:Ez; [|discriminate].
    injection Hy as <-. intros C. apply (L j z Hj Ez). now symmetry.
Qed.

(** C2. [find_column] first looks for a candidate equal to a lowered
    header, candidates in their order, and answers the first position of
    the first such candidate; only when no candidate equals a header does
    it answer the first header that contains a candidate; it answers
    "not found" exactly when no header contains a candidate.  A header
    that lowers to [sku] (to [name]) is found wherever it stands. *)
Theorem find_column_exact_then_substring (headers candidates : list string) :
  let lowered := map PyStr.lower headers in
  (forall pre c post,
      candidates = pre ++ c :: post ->
      (forall c', In c' pre -> ~ In c' lowered) ->
      In c lowered ->
      exists i, find_column headers candidates = Some i
                /\ first_at (eq c) lowered i)
  /\ ((forall c, In c candidates -> ~ In c lowered) ->
      forall i, find_column headers candidates = Some i
                <-> first_at (holds_candidate candidates) lowered i)
  /\ (find_column headers candidates = None
      <-> forall h, In h lowered -> ~ holds_candidate candidates h)
  /\ (forall i, first_at (fun h => PyStr.lower h = "sku") headers i ->
                find_column headers sku_candidates = Some i)
  /\ (forall i, first_at (fun h => PyStr.lower h = "name") headers i ->
                find_column headers name_candidates = Some i).
Proof.
  intros lowered. unfold find_column. fold lowered.
  assert (Exact : forall pre c post,
      (forall c', In c' pre -> ~ In c' lowered) -> In c lowered ->
      exists i,
        match first_exact lowered (pre ++ c :: post) with
        | Some i => Some i
        | None => first_containing 0 lowered (pre ++ c :: post)
        end = Some i /\ first_at (eq c) lowered i).
  { intros pre c post Hpre Hc.
    destruct (first_exact_found lowered pre c post Hpre Hc) as (i & Hi & Fi).
    exists i. now rewrite Hi. }
  assert (Top : forall c rest i,
      first_at (fun h => PyStr.lower h = c) headers i ->
      match first_exact lowered (c :: rest) with
      | Some i => Some i
      | None => first_containing 0 lowered (c :: rest)
      end = Some i).
  { intros c rest i F. apply first_at_map_lower in F. fold lowered in F.
    assert (Hin : In c lowered).
    { destruct F as [(h & Hh & <-) _]. eapply nth_error_In, Hh. }
    destruct (Exact [] c rest (fun _ (H : In _ []) => match H with end) Hin)
      as (k & Hk & Fk).
    simpl app in Hk. rewrite Hk. f_equal. eapply first_at_unique; eassumption. }
  split; [|split; [|split; [|split]]].
  - intros pre c post -> Hpre Hc. now apply Exact.
  - intros Hno i. apply first_exact_none in Hno. rewrite Hno.
    rewrite first_containing_spec. split.
    + intros (j & -> & F). exact F.
    + intros F. now exists i.
  - destruct (first_exact lowered candidates) as [i|] eqn:E.
    + split; [discriminate|]. intros H. exfalso.
      assert (Hex : ~ forall c, In c candidates -> ~ In c lowered).
      { intros C. apply first_exact_none in C. congruence. }
      apply Hex. intros c Hc Hin. apply (H c Hin). exists c.
      split; [exact Hc|apply equal_is_substring].
    + apply first_containing_none.
  - intros i. apply Top.
  - intros i. apply Top.
Qed.

Lemma find_column_exact_then_substring_witness :
  exists i, find_column ["Title"; "Item SKU"; "SKU"] sku_candidates = Some i
            /\ first_at (eq "sku") (map PyStr.lower ["Title"; "Item SKU"; "SKU"]) i.
Proof.
  apply (proj1 (find_column_exact_then_substring
                  ["Title"; "Item SKU"; "SKU"] sku_candidates)
           [] "sku" ["item sku"; "item_sku"]).
  - reflexivity.
  - intros c' [].
  - simpl. right. right. left. reflexivity.
Defined.

(** ** Extension inference *)

Lemma take_drop n s : (PyStr.take n s ++ PyStr.drop n s)%string = s.
Proof.
  revert s. induction n as [|n IH]; intros [|c r]; simpl; try reflexivity.
  now rewrite IH.
Qed.

Lemma lower_app a b :
  PyStr.lower (a ++ b) = (PyStr.lower a ++ PyStr.lower b)%string.
Proof. induction a as [|c a IH]; simpl; [reflexivity|now rewrite IH]. Qed.

Lemma lower_length s : String.length (PyStr.lower s) = String.length s.
Proof. induction s as [|c r IH]; simpl; [reflexivity|now rewrite IH]. Qed.

Lemma take_app_length a b : PyStr.take (String.length a) (a ++ b) = a.
Proof. induction a as [|c a IH]; simpl; [now destruct b|now rewrite IH]. Qed.

Lemma drop_app_length a b : PyStr.drop (String.length a) (a ++ b) = b.
Proof. induction a as [|c a IH]; simpl; [reflexivity|exact IH]. Qed.

Lemma lower_take n s : PyStr.lower (PyStr.take n s) = PyStr.take n (PyStr.lower s).
Proof.
  revert s. induction n as [|n IH]; intros [|c r]; simpl; try reflexivity.
  now rewrite IH.
Qed.

Lemma match_alt_spec alt rest m :
  match_alt alt rest = Some m <->
  exists r, rest = (m ++ r)%string /\ PyStr.lower m = alt
            /\ at_end_or_query r = true.
Proof.
  unfold match_alt. split.
  - destruct (PyStr.startswith alt (PyStr.lower rest)) eqn:P; simpl; [|discriminate].
    destruct (at_end_or_query _) eqn:T; [|discriminate].
    intros H. injection H as <-.
    exists (PyStr.drop (String.length alt) rest).
    split; [now rewrite take_drop|]. split; [|exact T].
    apply startswith_spec in P as [b Hb].
    now rewrite lower_take, Hb, take_app_length.
  - intros (r & -> & <- & T).
    assert (P : PyStr.startswith (PyStr.lower m) (PyStr.lower (m ++ r)) = true).
    { apply startswith_spec. exists (PyStr.lower r). apply lower_app. }
    now rewrite P, lower_length, drop_app_length, T, take_app_length.
Qed.

Lemma match_alts_some alts rest m :
  match_alts alts rest = Some m ->
  exists alt, In alt alts /\ match_alt alt rest = Some m.
Proof.
  induction alts as [|a more IH]; simpl; [discriminate|].
  destruct (match_alt a rest) as [x|] eqn:E.
  - intros H. injection H as <-. exists a. now split; [left|].
  - intros H. destruct (IH H) as (alt & Hin & Hm). exists alt. now split; [right|].
Qed.

Lemma match_alts_none alts rest alt m :
  match_alts alts rest = None -> In alt alts -> match_alt alt rest <> Some m.
Proof.
  induction alts as [|a more IH]; simpl; [intros _ []|].
  destruct (match_alt a rest) as [x|] eqn:E; [discriminate|].
  intros H [<-|Hin]; [congruence|now apply IH].
Qed.

(** Two readings of one text share the shorter one as a prefix. *)
Lemma app_split_shorter (a b c d : string) :
  (a ++ b = c ++ d)%string -> String.length a < String.length c ->
  exists e, c = (a ++ e)%string /\ b = (e ++ d)%string /\ e <> ""%string.
Proof.
  revert c. induction a as [|y a IH]; intros c H L; simpl in *.
  - exists c. split; [reflexivity|]. split; [exact H|].
    intros ->. simpl in L. lia.
  - destruct c as [|z c]; simpl in *; [lia|].
    injection H as -> H. destruct (IH c H) as (e & -> & -> & Ne); [lia|].
    now exists e.
Qed.

Lemma app_same_length (a b c d : string) :
  (a ++ b = c ++ d)%string -> String.length a = String.length c -> a = c.
Proof.
  intros H L. rewrite <- (take_app_length a b), H, L. apply take_app_length.
Qed.

(** The only alternative that extends another one is [jpeg], and what it
    adds is no end of the pattern. *)
Lemma longer_alternative_blocks (v e w : string) :
  In (PyStr.lower (v ++ e)) ext_alternatives ->
  In (PyStr.lower v) ext_alternatives ->
  e <> ""%string ->
  at_end_or_query (e ++ w) = false.
Proof.
  intros Hu Hv Ne. rewrite lower_app in Hu.
  destruct e as [|c e]; [congruence|].
  assert (V : PyStr.lower_char c = "e"%char).
  { unfold ext_alternatives in Hu, Hv. simpl in Hu, Hv.
    repeat destruct Hv as [Hv|Hv]; try contradiction; rewrite <- Hv in Hu;
      simpl in Hu; repeat destruct Hu as [Hu|Hu]; try contradiction;
      try discriminate; injection Hu as Hu; try exact Hu;
      destruct (PyStr.lower e); discriminate. }
  destruct c as [[] [] [] [] [] [] [] []]; vm_compute in V; try discriminate;
    reflexivity.
Qed.

(** At one position the pattern can match in one way only. *)
Lemma ext_match_here_unique s m r x r' :
  ext_match s "" m r -> ext_match s "" x r' -> x = m.
Proof.
  intros (-> & Hm & Tm) (E & Hx & Tx). simpl in E. injection E as E.
  destruct (Nat.lt_trichotomy (String.length x) (String.length m)) as [L|[L|L]].
  - symmetry in E.
    destruct (app_split_shorter x r' m r E L) as (e & -> & -> & Ne).
    rewrite (longer_alternative_blocks x e r Hm Hx Ne) in Tx. discriminate.
  - symmetry in E. now apply (app_same_length x r' m r).
  - destruct (app_split_shorter m r x r' E L) as (e & -> & -> & Ne).
    rewrite (longer_alternative_blocks m e r' Hx Hm Ne) in Tm. discriminate.
Qed.

Lemma match_ext_here_sound s m :
  match_ext_here s = Some m -> exists r, ext_match s "" m r.
Proof.
  unfold ext_match, match_ext_here. destruct s as [|c rest]; [discriminate|].
  destruct (Ascii.eqb c ".") eqn:E; [|discriminate].
  apply Ascii.eqb_eq in E. subst c. intros H.
  apply match_alts_some in H as (alt & Hin & H).
  apply match_alt_spec in H as (r & -> & <- & T).
  exists r. now repeat split.
Qed.

Lemma match_ext_here_spec s m :
  match_ext_here s = Some m <-> exists r, ext_match s "" m r.
Proof.
  split; [apply match_ext_here_sound|].
  intros (r & M). destruct (match_ext_here s) as [x|] eqn:E.
  - f_equal. apply match_ext_here_sound in E as (r' & M').
    eapply ext_match_here_unique; eassumption.
  - exfalso. destruct M as (-> & Hin & T).
    unfold match_ext_here in E. cbn [append] in E.
    rewrite Ascii.eqb_refl in E.
    eapply (match_alts_none _ _ (PyStr.lower m) m E Hin).
    apply match_alt_spec. now exists r.
Qed.

Lemma ext_match_tail c s p m r :
  ext_match s p m r -> ext_match (String c s) (String c p) m r.
Proof. intros (-> & H). split; [reflexivity|exact H]. Qed.

(** The search answers the leftmost match. *)
Lemma search_ext_spec url m :
  search_ext url = Some m <->
  exists p r, ext_match url p m r
              /\ forall p' m' r', ext_match url p' m' r' ->
                                  String.length p <= String.length p'.
Proof.
  revert m. induction url as [|c s IH]; intros m.
  - cbn. split; [discriminate|].
    intros (p & r & (E & _) & _). destruct p; discriminate.
  - cbn [search_ext]. destruct (match_ext_here (String c s)) as [x|] eqn:E.
    + split.
      * intros H. injection H as <-. apply match_ext_here_spec in E as (r & M).
        exists "", r. split; [exact M|]. intros. simpl. lia.
      * intros (p & r & M & Least). f_equal.
        apply match_ext_here_spec in E as (r' & M').
        specialize (Least _ _ _ M'). simpl in Least.
        destruct p; [|simpl in Least; lia].
        symmetry. eapply ext_match_here_unique; eassumption.
    + rewrite IH. split.
      * intros (p & r & M & Least). exists (String c p), r.
        split; [now apply ext_match_tail|].
        intros [|d p'] m' r' M'.
        -- exfalso. assert (X : match_ext_here (String c s) = Some m').
           { apply match_ext_here_spec. now exists r'. }
           congruence.
        -- simpl. apply le_n_S. apply (Least p' m' r').
           destruct M' as (E' & H'). injection E' as -> ->. now split.
      * intros (p & r & M & Least). destruct p as [|d p].
        -- exfalso. assert (X : match_ext_here (String c s) = Some m).
           { apply match_ext_here_spec. now exists r. }
           congruence.
        -- destruct M as (E' & H'). injection E' as -> ->.
           exists p, r. split; [now split|].
           intros p' m' r' M'.
           specialize (Least _ _ _ (ext_match_tail d _ _ _ _ M')).
           simpl in Least. lia.
Qed.

Lemma search_ext_none url :
  search_ext url = None <-> forall p m r, ~ ext_match url p m r.
Proof.
  induction url as [|c s IH].
  - cbn. split; [|reflexivity].
    intros _ p m r (E & _). destruct p; discriminate.
  - cbn [search_ext]. destruct (match_ext_here (String c s)) as [x|] eqn:E.
    + split; [discriminate|]. intros H. exfalso.
      apply match_ext_here_spec in E as (r & M). exact (H _ _ _ M).
    + rewrite IH. split.
      * intros H [|d p] m r M.
        -- assert (X : match_ext_here (String c s) = Some m).
           { apply match_ext_here_spec. now exists r. }
           congruence.
        -- destruct M as (E' & H'). injection E' as -> ->.
           apply (H p m r). now split.
      * intros H p m r M. exact (H _ _ _ (ext_match_tail c _ _ _ _ M)).
Qed.

(** C3. The content type decides when it holds one of the four known
    substrings, tried as jpeg, png, webp, gif; otherwise the leftmost
    extension the URL pattern finds decides, lowered and with jpeg
    written [.jpg]; otherwise the answer is [.jpg]. *)
Theorem guess_extension_precedence (url : string) :
  (forall ct, PyStr.contains "jpeg" ct = true ->
              guess_extension url (Some ct) = ".jpg")
  /\ (forall ct, PyStr.contains "jpeg" ct = false ->
                 PyStr.contains "png" ct = true ->
                 guess_extension url (Some ct) = ".png")
  /\ (forall ct, PyStr.contains "jpeg" ct = false ->
                 PyStr.contains "png" ct = false ->
                 PyStr.contains "webp" ct = true ->
                 guess_extension url (Some ct) = ".webp")
  /\ (forall ct, PyStr.contains "jpeg" ct = false ->
                 PyStr.contains "png" ct = false ->
                 PyStr.contains "webp" ct = false ->
                 PyStr.contains "gif" ct = true ->
                 guess_extension url (Some ct) = ".gif")
  /\ (forall ct, PyStr.contains "jpeg" ct = false ->
                 PyStr.contains "png" ct = false ->
                 PyStr.contains "webp" ct = false ->
                 PyStr.contains "gif" ct = false ->
                 guess_extension url (Some ct) = guess_extension url None)
  /\ (forall p m r,
         ext_match url p m r ->
         (forall p' m' r', ext_match url p' m' r' ->
                           String.length p <= String.length p') ->
         guess_extension url None =
           if String.eqb (PyStr.lower m) "jpeg" then ".jpg"
           else ("." ++ PyStr.lower m)%string)
  /\ ((forall p m r, ~ ext_match url p m r) ->
      guess_extension url None = ".jpg")
  /\ guess_extension "http://x/img?id=1" (Some "image/png") = ".png"
  /\ guess_extension "http://x/img.webp" None = ".webp"
  /\ guess_extension "http://x/img" None = ".jpg".
Proof.
  assert (NE : forall lit ct, lit <> ""%string ->
                 PyStr.contains lit ct = true -> PyStr.truthy ct = true).
  { intros lit ct Hl H. destruct ct; [|reflexivity].
    simpl in H. rewrite orb_false_r in H. destruct lit; [congruence|discriminate]. }
  unfold guess_extension, extension_of_content_type.
  repeat split.
  - intros ct H. rewrite (NE "jpeg" ct) by (discriminate || assumption).
    now rewrite H.
  - intros ct H0 H. rewrite (NE "png" ct) by (discriminate || assumption).
    now rewrite H0, H.
  - intros ct H0 H1 H. rewrite (NE "webp" ct) by (discriminate || assumption).
    now rewrite H0, H1, H.
  - intros ct H0 H1 H2 H. rewrite (NE "gif" ct) by (discriminate || assumption).
    now rewrite H0, H1, H2, H.
  - intros ct H0 H1 H2 H3. rewrite H0, H1, H2, H3.
    now destruct (PyStr.truthy ct).
  - intros p m r M Least.
    assert (S : search_ext url = Some m).
    { apply search_ext_spec. now exists p, r. }
    now rewrite S.
  - intros H. apply search_ext_none in H. now rewrite H.
Qed.

Lemma guess_extension_precedence_witness :
  guess_extension "http://x/a.GIF?b=c.png" (Some "image/x-png") = ".png"
  /\ guess_extension "http://x/a.GIF?b=c.png" None = ".gif".
Proof.
  split.
  - apply (proj1 (proj2 (guess_extension_precedence "http://x/a.GIF?b=c.png"))
             "image/x-png"); reflexivity.
  - apply (proj1 (proj2 (proj2 (proj2 (proj2 (proj2
             (guess_extension_precedence "http://x/a.GIF?b=c.png"))))))
             "http://x/a" "GIF" "?b=c.png").
    + repeat split. simpl. right. right. right. left. reflexivity.
    + intros p' m' r' M.
      destruct (Nat.le_gt_cases (String.length "http://x/a") (String.length p'))
        as [L|L]; [exact L|exfalso].
      destruct M as (E & Hin & T).
      assert (P : PyStr.take (String.length p' + 1) "http://x/a.GIF?b=c.png"
                  = (p' ++ ".")%string).
      { rewrite E.
        change (p' ++ "." ++ m' ++ r')%string
          with (p' ++ String "." (m' ++ r'))%string.
        clear. induction p' as [|c q IH]; simpl; [reflexivity|now rewrite IH]. }
      assert (B : String.length p' < 10) by exact L.
      clear - P B.
      assert (D : exists n, n < 10 /\ String.length p' = n) by (now exists (String.length p')).
      destruct D as (n & Hn & Hl). rewrite Hl in P.
      assert (Last : forall q : string, String.get (String.length q) (q ++ ".") = Some "."%char).
      { induction q as [|c q IH]; simpl; [reflexivity|exact IH]. }
      specialize (Last p'). rewrite <- P, Hl in Last.
      do 10 (destruct n as [|n]; [vm_compute in Last; discriminate|]). lia.
Defined.

(** ** Skipped rows *)

Lemma cell_at_nth index row v : nth_error row index = Some v -> cell_at index row = v.
Proof. intros H. unfold cell_at. now apply nth_error_nth. Qed.

Lemma field_missing_falsy index row :
  field_missing index row -> cell_truthy (cell_at index row) = false.
Proof.
  intros [H|[H|H]].
  - unfold cell_at. now rewrite nth_overflow.
  - now rewrite (cell_at_nth _ _ _ H).
  - now rewrite (cell_at_nth _ _ _ H).
Qed.

Lemma field_zero_or_false_falsy index row :
  field_zero_or_false index row -> cell_truthy (cell_at index row) = false.
Proof. intros [H|H]; now rewrite (cell_at_nth _ _ _ H). Qed.

Lemma skip_when_falsy w a si ni n row st :
  cell_truthy (cell_at si row) = false \/ cell_truthy (cell_at ni row) = false ->
  process_row w a si ni n row st = (Ok tt, print (SkippingRow n) st).
Proof.
  intros H. unfold process_row.
  destruct H as [H|H]; rewrite H; simpl; [reflexivity|].
  now rewrite orb_true_r.
Qed.

Lemma gets_app t u : gets (t ++ u) = gets t ++ gets u.
Proof. apply flat_map_app. Qed.

Lemma shown_app t u : shown (t ++ u) = shown t ++ shown u.
Proof. apply flat_map_app. Qed.

Lemma writes_app t u : writes (t ++ u) = writes t ++ writes u.
Proof. apply flat_map_app. Qed.

Lemma printed_app t u : printed (t ++ u) = printed t ++ printed u.
Proof. apply flat_map_app. Qed.

(** C5. A row whose SKU or name is empty or absent is skipped: the row
    prints its one line, no request is issued for it, and the loop goes
    on with the next row. *)
Theorem row_with_missing_field_is_skipped
  (w : world) (a : args) (si ni n : nat) (row : list cell)
  (rest : list (list cell)) (st : state) :
  field_missing si row \/ field_missing ni row ->
  let st' := print (SkippingRow n) st in
  process_row w a si ni n row st = (Ok tt, st')
  /\ requests st' = requests st
  /\ gets (trace st') = gets (trace st)
  /\ stdin st' = stdin st
  /\ run_rows w a si ni n (row :: rest) st
     = run_rows w a si ni (S n) rest st'.
Proof.
  intros H st'.
  assert (E : process_row w a si ni n row st = (Ok tt, st')).
  { apply skip_when_falsy.
    destruct H as [H|H]; [left|right]; now apply field_missing_falsy. }
  split; [exact E|]. split; [reflexivity|]. split.
  - unfold st', print, emit. simpl. rewrite gets_app. simpl. apply app_nil_r.
  - split; [reflexivity|]. cbn [run_rows]. now rewrite E.
Qed.

Lemma row_with_missing_field_is_skipped_witness :
  let w := sample_world [[CStr "ABC-123"; CStr ""]] sample_page
                        five_candidates jpeg_image in
  let st := initial ["y"] in
  process_row w sample_args 0 1 2 [CStr "ABC-123"; CStr ""] st
  = (Ok tt, print (SkippingRow 2) st)
  /\ gets (trace (print (SkippingRow 2) st)) = gets (trace st).
Proof.
  intros w st.
  destruct (row_with_missing_field_is_skipped w sample_args 0 1 2
              [CStr "ABC-123"; CStr ""] [] st) as (E & _ & G & _).
  - right. right. right. reflexivity.
  - split; [exact E|exact G].
Defined.

(** C10. A SKU or name cell holding the number 0 or the boolean False
    is skipped like an empty one, and no request is issued, although
    such a value prints as a non-empty string that would do as a SKU. *)
Theorem row_with_zero_or_false_is_skipped
  (w : world) (a : args) (si ni n : nat) (row : list cell)
  (rest : list (list cell)) (st : state) :
  field_zero_or_false si row \/ field_zero_or_false ni row ->
  let st' := print (SkippingRow n) st in
  (process_row w a si ni n row st = (Ok tt, st')
   /\ requests st' = requests st
   /\ gets (trace st') = gets (trace st)
   /\ run_rows w a si ni n (row :: rest) st
      = run_rows w a si ni (S n) rest st')
  /\ (PyStr.strip (cell_str (CInt 0)) = "0"
      /\ PyStr.strip (cell_str (CBool false)) = "False"
      /\ safe_filename "0" = "0"
      /\ safe_filename "False" = "False").
Proof.
  intros H st'.
  assert (E : process_row w a si ni n row st = (Ok tt, st')).
  { apply skip_when_falsy.
    destruct H as [H|H]; [left|right]; now apply field_zero_or_false_falsy. }
  split; [|repeat split].
  split; [exact E|]. split; [reflexivity|]. split.
  - unfold st', print, emit. simpl. rewrite gets_app. simpl. apply app_nil_r.
  - cbn [run_rows]. now rewrite E.
Qed.

Lemma row_with_zero_or_false_is_skipped_witness :
  let w := sample_world [[CInt 0; CStr "Widget"]] sample_page
                        five_candidates jpeg_image in
  let st := initial ["y"] in
  process_row w sample_args 0 1 2 [CInt 0; CStr "Widget"] st
  = (Ok tt, print (SkippingRow 2) st).
Proof.
  intros w st.
  destruct (row_with_zero_or_false_is_skipped w sample_args 0 1 2
              [CInt 0; CStr "Widget"] [] st) as ((E & _) & _).
  - left. left. reflexivity.
  - exact E.
Defined.

(** ** Token extraction *)

Lemma span_spec q s a b :
  PyStr.span q s = (a, b) ->
  s = (a ++ b)%string /\ all_chars q a = true
  /\ (b = ""%string \/ exists c r, b = String c r /\ q c = false).
Proof.
  revert a b. induction s as [|c r IH]; intros a b; simpl.
  - intros H. injection H as <- <-. repeat split. now left.
  - destruct (q c) eqn:Q.
    + destruct (PyStr.span q r) as [a' b'] eqn:E. intros H. injection H as <- <-.
      destruct (IH a' b' eq_refl) as (-> & A & B). simpl. rewrite Q, A.
      repeat split. exact B.
    + intros H. injection H as <- <-. repeat split. right. now exists c, r.
Qed.

Lemma span_app q a c r :
  all_chars q a = true -> q c = false ->
  PyStr.span q (a ++ String c r) = (a, String c r).
Proof.
  intros A Q. induction a as [|d a IH]; simpl.
  - now rewrite Q.
  - simpl in A. apply andb_true_iff in A as [D A]. now rewrite D, (IH A).
Qed.

Lemma match_token_spec opening closing s t :
  match_token opening closing s = Some t <->
  exists b, token_match opening closing s "" t b.
Proof.
  unfold match_token, token_match. split.
  - destruct (PyStr.startswith opening s) eqn:P; [|discriminate].
    apply startswith_spec in P as [rest ->]. rewrite drop_app_length.
    destruct (PyStr.span _ rest) as [tok after] eqn:E.
    apply span_spec in E as (-> & A & B).
    destruct tok as [|x tok]; [discriminate|].
    destruct after as [|y after]; [discriminate|]. simpl.
    intros H. injection H as <-.
    destruct B as [B|(c & r & B & Q)]; [discriminate|]. injection B as <- <-.
    apply negb_false_iff, Ascii.eqb_eq in Q. subst y.
    exists after. repeat split; [discriminate|exact A].
  - intros (b & -> & Ne & A). simpl.
    assert (P : PyStr.startswith opening (opening ++ t ++ String closing b) = true).
    { apply startswith_spec. now eexists. }
    rewrite P, drop_app_length, (span_app _ t closing b A).
    + destruct t; [congruence|reflexivity].
    + now rewrite Ascii.eqb_refl.
Qed.

Lemma token_match_tail opening closing c s a t b :
  token_match opening closing s a t b ->
  token_match opening closing (String c s) (String c a) t b.
Proof. intros (-> & H). split; [reflexivity|exact H]. Qed.

Lemma search_token_none opening closing s :
  search_token opening closing s = None <->
  forall a t b, ~ token_match opening closing s a t b.
Proof.
  induction s as [|c s IH].
  - cbn [search_token]. destruct (match_token opening closing "") as [x|] eqn:E.
    + split; [discriminate|]. intros H. exfalso.
      apply match_token_spec in E as (b & M). exact (H _ _ _ M).
    + split; [|reflexivity]. intros _ a t b M.
      destruct a as [|d a].
      * assert (X : match_token opening closing "" = Some t).
        { apply match_token_spec. now exists b. }
        congruence.
      * destruct M as (M & _). discriminate.
  - cbn [search_token].
    destruct (match_token opening closing (String c s)) as [x|] eqn:E.
    + split; [discriminate|]. intros H. exfalso.
      apply match_token_spec in E as (b & M). exact (H _ _ _ M).
    + rewrite IH. split.
      * intros H [|d a] t b M.
        -- assert (X : match_token opening closing (String c s) = Some t).
           { apply match_token_spec. now exists b. }
           congruence.
        -- destruct M as (E' & H'). injection E' as -> ->.
           apply (H a t b). now split.
      * intros H a t b M. exact (H _ _ _ (token_match_tail _ _ c _ _ _ _ M)).
Qed.

Lemma search_token_some opening closing s t :
  search_token opening closing s = Some t ->
  exists a b, token_match opening closing s a t b.
Proof.
  induction s as [|c s IH]; cbn [search_token];
    destruct (match_token opening closing _) as [x|] eqn:E.
  - intros H. injection H as <-. apply match_token_spec in E as (b & M).
    now exists "", b.
  - discriminate.
  - intros H. injection H as <-. apply match_token_spec in E as (b & M).
    now exists "", b.
  - intros H. destruct (IH H) as (a & b & M).
    exists (String c a), b. now apply token_match_tail.
Qed.

(** ** Requests *)

Lemma get_checked_ok w r st resp :
  http w (requests st) r = Reply resp -> status_ok resp ->
  get_checked w r st
  = (Ok resp, {| stdin := stdin st; requests := S (requests st);
                 trace := trace st ++ [Get r] |}).
Proof.
  intros H S. unfold get_checked, session_get. rewrite H.
  destruct ((400 <=? status resp) && (status resp <? 600))%nat eqn:E;
    [|reflexivity].
  apply andb_true_iff in E as [E1 E2].
  apply Nat.leb_le in E1. apply Nat.ltb_lt in E2.
  destruct S; lia.
Qed.

(** C8. When the root page answers but carries neither form of the
    token, [get_vqd] raises, the driver reports the failed fetch for this
    product only, and the loop goes on with the next row. *)
Theorem token_failure_aborts_only_the_row
  (w : world) (a : args) (si ni n : nat) (row : list cell)
  (rest : list (list cell)) (st : state) (resp : response) :
  cell_truthy (cell_at si row) = true ->
  cell_truthy (cell_at ni row) = true ->
  let sku := PyStr.strip (cell_str (cell_at si row)) in
  let name := PyStr.strip (cell_str (cell_at ni row)) in
  http w (requests st) (root_request name) = Reply resp ->
  status_ok resp ->
  (forall x t y, ~ token_match "vqd='" "'" (body resp) x t y) ->
  (forall x t y, ~ token_match "vqd=" "&" (body resp) x t y) ->
  let st' := {| stdin := stdin st;
                requests := S (requests st);
                trace := trace st ++ [Print (Searching sku name);
                                      Get (root_request name);
                                      Print (FetchFailed sku token_missing)] |} in
  fst (get_vqd w name (print (Searching sku name) st)) = Raise token_missing
  /\ process_row w a si ni n row st = (Ok tt, st')
  /\ run_rows w a si ni n (row :: rest) st
     = run_rows w a si ni (S n) rest st'.
Proof.
  intros Hs Hn sku name Hr Hok N1 N2 st'.
  apply search_token_none in N1. apply search_token_none in N2.
  assert (V : get_vqd w name (print (Searching sku name) st)
              = (Raise token_missing,
                 {| stdin := stdin st; requests := S (requests st);
                    trace := (trace st ++ [Print (Searching sku name)])
                             ++ [Get (root_request name)] |})).
  { unfold get_vqd.
    rewrite (get_checked_ok w _ (print (Searching sku name) st) resp Hr Hok).
    now rewrite N1, N2. }
  assert (E : process_row w a si ni n row st = (Ok tt, st')).
  { unfold process_row. rewrite Hs, Hn. cbn [negb orb].
    fold sku name. unfold fetch_image_results. rewrite V.
    unfold st', print, emit. cbn [stdin requests trace].
    now rewrite <- !app_assoc. }
  split; [now rewrite V|]. split; [exact E|].
  cbn [run_rows]. now rewrite E.
Qed.

Lemma token_failure_aborts_only_the_row_witness :
  let row := [CStr "ABC-123"; CStr "Widget"] in
  let w := sample_world [row] page_without_token five_candidates jpeg_image in
  process_row w sample_args 0 1 2 row (initial ["y"])
  = (Ok tt,
     {| stdin := ["y"]; requests := 1;
        trace := [Print (Searching "ABC-123" "Widget");
                  Get (root_request "Widget");
                  Print (FetchFailed "ABC-123" token_missing)] |}).
Proof.
  intros row w.
  refine (proj1 (proj2 (token_failure_aborts_only_the_row w sample_args 0 1 2
                          row [] (initial ["y"]) page_without_token
                          eq_refl eq_refl eq_refl _ _ _))).
  - left. simpl. lia.
  - apply search_token_none. reflexivity.
  - apply search_token_none. reflexivity.
Defined.

(** ** The selector *)

Lemma prompt_no q l rest n tr :
  says_no l ->
  prompt_yes_no q {| stdin := l :: rest; requests := n; trace := tr |}
  = (Ok false, {| stdin := rest; requests := n; trace := tr ++ [Input q] |}).
Proof.
  intros H. unfold prompt_yes_no. cbn [stdin trace requests prompt_loop].
  destruct H as [H|H]; rewrite H; reflexivity.
Qed.

Lemma prompt_yes q l rest n tr :
  says_yes l ->
  prompt_yes_no q {| stdin := l :: rest; requests := n; trace := tr |}
  = (Ok true, {| stdin := rest; requests := n; trace := tr ++ [Input q] |}).
Proof.
  intros H. unfold prompt_yes_no. cbn [stdin trace requests prompt_loop].
  destruct H as [H|H]; rewrite H; reflexivity.
Qed.

(** Showing one candidate: the events before the answer is read. *)
Lemma present_events total index r n tr lines :
  exists ev,
    (if PyStr.truthy (source_of r)
     then print (Source (source_of r))
            (print (Candidate index total (image_of r))
               {| stdin := lines; requests := n; trace := tr |})
     else print (Candidate index total (image_of r))
            {| stdin := lines; requests := n; trace := tr |})
    = {| stdin := lines; requests := n; trace := tr ++ ev |}
    /\ Forall presenting ev /\ shown ev = [image_of r].
Proof.
  destruct (PyStr.truthy (source_of r)).
  - exists [Print (Candidate index total (image_of r)); Print (Source (source_of r))].
    unfold print, emit. cbn [stdin requests trace]. rewrite <- app_assoc.
    repeat split. repeat constructor.
  - exists [Print (Candidate index total (image_of r))].
    repeat split. repeat constructor.
Qed.

Lemma presenting_quiet ev :
  Forall presenting ev ->
  gets ev = [] /\ writes ev = [] /\ ~ In NoSelection (printed ev)
  /\ forall e, ~ In (DownloadFailed e) (printed ev).
Proof.
  induction 1 as [|e ev He _ IH]; [repeat split; intros; intros []|].
  destruct IH as (G & W & N & D).
  destruct e as [l|l|q|r|p|p c]; try contradiction.
  - destruct l; try contradiction; simpl; repeat split; try assumption;
      try (intros [C|C]; [discriminate|contradiction]);
      intros e [C|C]; try discriminate; now apply (D e).
  - simpl. repeat split; assumption.
Qed.

(** Every candidate shown is refused: the loop runs to its end. *)
Lemma review_all_refused w a sku total results :
  forall index st nos rest,
    stdin st = nos ++ rest -> Forall says_no nos ->
    List.length nos = List.length (filter presentable results) ->
    exists ev,
      review w a sku total index results st
      = (Ok false, {| stdin := rest; requests := requests st;
                      trace := trace st ++ ev |})
      /\ Forall presenting ev
      /\ shown ev = map image_of (filter presentable results).
Proof.
  induction results as [|r results IH]; intros index [lines n tr] nos rest;
    cbn [stdin requests trace]; intros Hin Hno Hlen.
  - destruct nos; [|discriminate]. simpl in Hin. subst lines.
    exists []. rewrite app_nil_r. repeat split. constructor.
  - cbn [review filter] in *. destruct (presentable r) eqn:P; cbn [negb].
    + destruct nos as [|l nos]; [discriminate|].
      simpl in Hin. subst lines. inversion Hno as [|? ? Hl Hno']; subst.
      destruct (present_events total index r n tr (l :: nos ++ rest))
        as (ev & -> & Fev & Sev).
      rewrite (prompt_no _ l _ _ _ Hl).
      destruct (IH (S index)
                  {| stdin := nos ++ rest; requests := n;
                     trace := (tr ++ ev) ++ [Input question] |}
                  nos rest eq_refl Hno') as (ev' & -> & Fev' & Sev').
      { simpl in Hlen. lia. }
      exists (ev ++ [Input question] ++ ev'). cbn [stdin requests trace].
      rewrite <- !app_assoc. split; [reflexivity|]. split.
      * apply Forall_app. split; [exact Fev|].
        apply Forall_app. split; [repeat constructor|exact Fev'].
      * rewrite !shown_app, Sev, Sev'. reflexivity.
    + apply (IH (S index) {| stdin := lines; requests := n; trace := tr |}
               nos rest Hin Hno Hlen).
Qed.

(** The candidates before [r] are refused and [r] is accepted: the loop
    ends with the download of [r]. *)
Lemma review_first_accepted w a sku total pre r post :
  forall index st nos yes rest,
    presentable r = true ->
    stdin st = nos ++ yes :: rest -> Forall says_no nos -> says_yes yes ->
    List.length nos = List.length (filter presentable pre) ->
    exists ev,
      Forall presenting ev
      /\ shown ev = map image_of (filter presentable pre) ++ [image_of r]
      /\ review w a sku total index (pre ++ r :: post) st
         = match download_image w (image_of r)
                   (Pathlib.joinpath (output_dir a) (safe_filename sku))
                   {| stdin := rest; requests := requests st;
                      trace := trace st ++ ev |} with
           | (Raise exc, st4) => (Ok true, print (DownloadFailed exc) st4)
           | (Ok _, st4) => (Ok true, st4)
           end.
Proof.
  induction pre as [|c pre IH]; intros index [lines n tr] nos yes rest;
    cbn [stdin requests trace]; intros P Hin Hno Hyes Hlen.
  - destruct nos; [|discriminate]. simpl in Hin. subst lines.
    cbn [app review]. rewrite P. cbn [negb].
    destruct (present_events total index r n tr (yes :: rest))
      as (ev & -> & Fev & Sev).
    rewrite (prompt_yes _ yes _ _ _ Hyes).
    exists (ev ++ [Input question]). rewrite <- app_assoc.
    split; [|split; [|reflexivity]].
    + apply Forall_app. split; [exact Fev|repeat constructor].
    + rewrite shown_app, Sev. reflexivity.
  - cbn [app review filter] in *. destruct (presentable c) eqn:Pc; cbn [negb].
    + destruct nos as [|l nos]; [discriminate|].
      simpl in Hin. subst lines. inversion Hno as [|? ? Hl Hno']; subst.
      destruct (present_events total index c n tr (l :: nos ++ yes :: rest))
        as (ev & -> & Fev & Sev).
      rewrite (prompt_no _ l _ _ _ Hl).
      destruct (IH (S index)
                  {| stdin := nos ++ yes :: rest; requests := n;
                     trace := (tr ++ ev) ++ [Input question] |}
                  nos yes rest P eq_refl Hno' Hyes) as (ev' & Fev' & Sev' & ->).
      { simpl in Hlen. lia. }
      exists (ev ++ [Input question] ++ ev'). cbn [stdin requests trace].
      rewrite <- !app_assoc. split; [|split; [|reflexivity]].
      * apply Forall_app. split; [exact Fev|].
        apply Forall_app. split; [repeat constructor|exact Fev'].
      * rewrite !shown_app, Sev, Sev'. reflexivity.
    + apply (IH (S index) {| stdin := lines; requests := n; trace := tr |}
               nos yes rest P Hin Hno Hyes Hlen).
Qed.

(** A download issues its one request, whatever comes of it. *)
Lemma download_image_events w url destination st :
  exists r ev,
    download_image w url destination st
    = (r, {| stdin := stdin st; requests := S (requests st);
             trace := trace st ++ Get (download_request url) :: ev |})
    /\ gets ev = [] /\ shown ev = []
    /\ ~ In NoSelection (printed ev)
    /\ match r with
       | Raise _ => ev = []
       | Ok _ => exists p content, ev = [WriteBytes p content; Print (Saved p)]
       end.
Proof.
  unfold download_image, get_checked, session_get.
  destruct (http w (requests st) (download_request url)) as [reason|resp].
  - exists (Raise (RequestException reason)), []. repeat split. intros [].
  - destruct ((400 <=? status resp) && (status resp <? 600))%nat.
    + exists (Raise (HTTPError (status resp))), []. repeat split. intros [].
    + destruct (Pathlib.with_suffix destination _) as [p|].
      * cbn [requests]. destruct (write_error w (S (requests st)) p) as [reason|].
        -- exists (Raise (OSError reason)), []. repeat split. intros [].
        -- exists (Ok tt), [WriteBytes p (body resp); Print (Saved p)].
           unfold print, emit. cbn [stdin requests trace].
           rewrite <- !app_assoc. repeat split.
           ++ intros [C|[]]. discriminate.
           ++ now exists p, (body resp).
      * exists (Raise empty_name), []. repeat split. intros [].
Qed.

Lemma get_checked_stdin w r st : stdin (snd (get_checked w r st)) = stdin st.
Proof.
  unfold get_checked, session_get.
  destruct (http w (requests st) r) as [reason|resp]; [reflexivity|].
  now destruct ((400 <=? status resp) && (status resp <? 600))%nat.
Qed.

(** Lines 73-75 read the results when they are a list, and raise
    otherwise. *)
Lemma read_results_spec max resp :
  read_results max resp
  = match json_results resp with
    | Some l => Ok (slice_to max l)
    | None => Raise (json_failure resp)
    end.
Proof.
  unfold read_results, json_results, json_failure.
  now destruct (json resp) as [[[[l|]|]|]|].
Qed.

(** The search reads nothing from the operator. *)
Lemma fetch_image_results_stdin w query max st :
  stdin (snd (fetch_image_results w query max st)) = stdin st.
Proof.
  unfold fetch_image_results, get_vqd.
  pose proof (get_checked_stdin w (root_request query) st) as H1.
  destruct (get_checked w (root_request query) st) as [[resp|e] st1];
    cbn [snd] in H1; [|exact H1].
  assert (K : forall vqd,
             stdin (snd (let (r, st2) := get_checked w (images_request query vqd) st1 in
                         match r with
                         | Raise e => (@Raise (list search_result) e, st2)
                         | Ok resp0 => (read_results max resp0, st2)
                         end)) = stdin st).
  { intros vqd.
    pose proof (get_checked_stdin w (images_request query vqd) st1) as H2.
    destruct (get_checked w (images_request query vqd) st1) as [[resp2|e] st2];
      cbn [snd] in *; congruence. }
  destruct (search_token "vqd='" "'" (body resp)) as [t|]; [apply K|].
  destruct (search_token "vqd=" "&" (body resp)) as [t|]; [apply K|].
  exact H1.
Qed.

(** A row with both fields and a non-empty result list goes through the
    selector. *)
Lemma process_row_reviewed w a si ni n row st results st2 :
  cell_truthy (cell_at si row) = true ->
  cell_truthy (cell_at ni row) = true ->
  let sku := PyStr.strip (cell_str (cell_at si row)) in
  let name := PyStr.strip (cell_str (cell_at ni row)) in
  fetch_image_results w name (max_results a) (print (Searching sku name) st)
  = (Ok results, st2) ->
  results <> [] ->
  process_row w a si ni n row st
  = match review w a sku (List.length results) 1 results st2 with
    | (Raise e, st3) => (Raise e, st3)
    | (Ok accepted, st3) =>
        if negb accepted then (Ok tt, print NoSelection st3) else (Ok tt, st3)
    end.
Proof.
  intros Hs Hn sku name F Ne. unfold process_row.
  rewrite Hs, Hn. cbn [negb orb]. fold sku name. rewrite F.
  destruct results; [congruence|reflexivity].
Qed.

(** C6. The selector stops at the first acceptance: when the operator
    refuses the candidates shown before [r] and accepts [r], one request
    is issued, the download of [r], and nothing after [r] is shown; when
    every candidate shown is refused (those without an image URL are not
    shown), nothing is requested or written and the row ends, without
    error, on the line that no image was selected. *)
Theorem selector_stops_at_first_acceptance (w : world) (a : args) :
  (forall sku total index st pre r post nos yes rest,
      presentable r = true ->
      stdin st = nos ++ yes :: rest ->
      Forall says_no nos -> says_yes yes ->
      List.length nos = List.length (filter presentable pre) ->
      exists st' ev,
        review w a sku total index (pre ++ r :: post) st = (Ok true, st')
        /\ stdin st' = rest
        /\ trace st' = trace st ++ ev
        /\ gets ev = [download_request (image_of r)]
        /\ shown ev = map image_of (filter presentable pre) ++ [image_of r])
  /\ (forall sku total index st results nos rest,
      stdin st = nos ++ rest ->
      Forall says_no nos ->
      List.length nos = List.length (filter presentable results) ->
      exists st' ev,
        review w a sku total index results st = (Ok false, st')
        /\ stdin st' = rest /\ requests st' = requests st
        /\ trace st' = trace st ++ ev
        /\ gets ev = [] /\ writes ev = []
        /\ shown ev = map image_of (filter presentable results))
  /\ (forall si ni n row st results st2 nos rest,
      cell_truthy (cell_at si row) = true ->
      cell_truthy (cell_at ni row) = true ->
      fetch_image_results w (PyStr.strip (cell_str (cell_at ni row)))
        (max_results a)
        (print (Searching (PyStr.strip (cell_str (cell_at si row)))
                          (PyStr.strip (cell_str (cell_at ni row)))) st)
      = (Ok results, st2) ->
      results <> [] ->
      stdin st = nos ++ rest ->
      Forall says_no nos ->
      List.length nos = List.length (filter presentable results) ->
      exists ev,
        process_row w a si ni n row st
        = (Ok tt, {| stdin := rest; requests := requests st2;
                     trace := trace st2 ++ ev ++ [Print NoSelection] |})
        /\ gets ev = [] /\ writes ev = []).
Proof.
  split; [|split].
  - intros sku total index st pre r post nos yes rest P Hin Hno Hyes Hlen.
    destruct (review_first_accepted w a sku total pre r post index st
                nos yes rest P Hin Hno Hyes Hlen) as (ev & Fev & Sev & ->).
    destruct (download_image_events w (image_of r)
                (Pathlib.joinpath (output_dir a) (safe_filename sku))
                {| stdin := rest; requests := requests st;
                   trace := trace st ++ ev |})
      as (res & ev' & -> & G' & S' & _ & Shape).
    cbn [stdin requests trace].
    destruct (presenting_quiet ev Fev) as (G & _).
    destruct res as [[]|exc].
    + eexists. exists (ev ++ Get (download_request (image_of r)) :: ev').
      split; [reflexivity|]. cbn [stdin trace].
      rewrite <- app_assoc. repeat split.
      * rewrite gets_app, G. simpl. now rewrite G'.
      * rewrite shown_app, Sev. simpl. now rewrite S', app_nil_r.
    + subst ev'. eexists.
      exists (ev ++ [Get (download_request (image_of r));
                     Print (DownloadFailed exc)]).
      split; [reflexivity|]. unfold print, emit. cbn [stdin trace].
      rewrite <- !app_assoc. repeat split.
      * rewrite gets_app, G. reflexivity.
      * rewrite shown_app, Sev. simpl. now rewrite app_nil_r.
  - intros sku total index st results nos rest Hin Hno Hlen.
    destruct (review_all_refused w a sku total results index st nos rest
                Hin Hno Hlen) as (ev & -> & Fev & Sev).
    destruct (presenting_quiet ev Fev) as (G & W & _).
    eexists. exists ev. repeat split; assumption.
  - intros si ni n row st results st2 nos rest Hs Hn F Ne Hin Hno Hlen.
    rewrite (process_row_reviewed w a si ni n row st results st2 Hs Hn F Ne).
    assert (Hin2 : stdin st2 = nos ++ rest).
    { rewrite <- Hin. pose proof (fetch_image_results_stdin w
        (PyStr.strip (cell_str (cell_at ni row))) (max_results a)
        (print (Searching (PyStr.strip (cell_str (cell_at si row)))
                          (PyStr.strip (cell_str (cell_at ni row)))) st)) as K.
      now rewrite F in K. }
    destruct (review_all_refused w a
                (PyStr.strip (cell_str (cell_at si row)))
                (List.length results) results 1 st2 nos rest
                Hin2 Hno Hlen) as (ev & -> & Fev & Sev).
    destruct (presenting_quiet ev Fev) as (G & W & _).
    exists ev. cbn [negb]. unfold print, emit. cbn [stdin requests trace].
    rewrite <- app_assoc. repeat split; assumption.
Qed.

Lemma says_no_n : says_no "n".
Proof. left. reflexivity. Qed.

Lemma says_yes_y : says_yes "y".
Proof. left. reflexivity. Qed.

Lemma selector_stops_at_first_acceptance_witness :
  let w := sample_world [[CStr "ABC-123"; CStr "Widget"]] sample_page
                        five_candidates jpeg_image in
  exists st' ev,
    review w sample_args "ABC-123" 5 1
           (firstn 4 five_candidates ++ candidate "http://img/5" :: [])
           (initial ["n"; "n"; "n"; "n"; "y"])
    = (Ok true, st')
    /\ stdin st' = []
    /\ trace st' = trace (initial ["n"; "n"; "n"; "n"; "y"]) ++ ev
    /\ gets ev = [download_request "http://img/5"]
    /\ shown ev = map image_of (filter presentable (firstn 4 five_candidates))
                  ++ ["http://img/5"].
Proof.
  intros w.
  apply (proj1 (selector_stops_at_first_acceptance w sample_args)
           "ABC-123" 5 1 (initial ["n"; "n"; "n"; "n"; "y"])
           (firstn 4 five_candidates) (candidate "http://img/5") []
           ["n"; "n"; "n"; "n"] "y" []).
  - reflexivity.
  - reflexivity.
  - repeat constructor; apply says_no_n.
  - apply says_yes_y.
  - reflexivity.
Defined.




(** ** Completion of the row loop *)











(** ** The name of the file written *)

Lemma guess_extension_range url ct :
  In (guess_extension url ct) [".jpg"; ".png"; ".gif"; ".webp"].
Proof.
  unfold guess_extension, extension_of_content_type.
  assert (U : In match search_ext url with
                 | Some m => if String.eqb (PyStr.lower m) "jpeg" then ".jpg"
                             else ("." ++ PyStr.lower m)%string
                 | None => ".jpg"
                 end [".jpg"; ".png"; ".gif"; ".webp"]).
  { destruct (search_ext url) as [m|] eqn:E; [|now left].
    apply search_ext_spec in E as (p & r & (_ & Hin & _) & _).
    unfold ext_alternatives in Hin. simpl in Hin.
    repeat destruct Hin as [Hin|Hin]; try contradiction; rewrite <- Hin; simpl; tauto. }
  destruct ct as [c|]; [|exact U].
  destruct (PyStr.truthy c); [|exact U].
  destruct (PyStr.contains "jpeg" c); [simpl; tauto|].
  destruct (PyStr.contains "png" c); [simpl; tauto|].
  destruct (PyStr.contains "webp" c); [simpl; tauto|].
  destruct (PyStr.contains "gif" c); [simpl; tauto|exact U].
Qed.

Lemma take_all s : PyStr.take (String.length s) s = s.
Proof. induction s as [|c r IH]; simpl; [reflexivity|now rewrite IH]. Qed.

(** [with_suffix] on a path that ends in a named component: the stem of
    the name, then the new suffix. *)
Lemma with_suffix_replaces dir nm ext :
  In ext [".jpg"; ".png"; ".gif"; ".webp"] ->
  nm <> ""%string ->
  Pathlib.with_suffix (dir ++ [nm]) ext
  = Some (dir ++ [(Pathlib.stem nm ++ ext)%string]).
Proof.
  intros He Hn. unfold Pathlib.with_suffix, Pathlib.name.
  rewrite last_last, removelast_last.
  assert (V : PyStr.contains "/" ext
              || PyStr.truthy ext && negb (PyStr.startswith "." ext)
              || String.eqb ext "." = false).
  { simpl in He. repeat destruct He as [He|He]; try contradiction;
      rewrite <- He; reflexivity. }
  rewrite V. destruct nm; [congruence|reflexivity].
Qed.

Lemma stem_without_suffix nm : Pathlib.suffix nm = ""%string -> Pathlib.stem nm = nm.
Proof.
  intros H. unfold Pathlib.stem. rewrite H. cbn [String.length].
  rewrite Nat.sub_0_r. apply take_all.
Qed.

Lemma safe_filename_not_empty sku : safe_filename sku <> ""%string.
Proof.
  destruct (safe_filename_shape sku) as [E|(T & _)]; [rewrite E; discriminate|].
  intros C. rewrite C in T. discriminate.
Qed.

(** What the downloader writes when the host answers and the file can
    be written: one file, in the output directory, named by the stem of
    the sanitized SKU and the inferred extension (the single dot apart,
    which the join drops). *)
Lemma download_names_file_after_stem w url dir sku st resp :
  http w (requests st) (download_request url) = Reply resp ->
  status_ok resp ->
  safe_filename sku <> "."%string ->
  let file := (Pathlib.stem (safe_filename sku)
               ++ guess_extension url (content_type resp))%string in
  write_error w (S (requests st)) (dir ++ [file]) = None ->
  download_image w url (Pathlib.joinpath dir (safe_filename sku)) st
  = (Ok tt, {| stdin := stdin st; requests := S (requests st);
               trace := trace st ++ [Get (download_request url);
                                     WriteBytes (dir ++ [file]) (body resp);
                                     Print (Saved (dir ++ [file]))] |}).
Proof.
  intros H Hok Hd file Hw. unfold download_image.
  rewrite (get_checked_ok w _ st resp H Hok).
  pose proof (safe_filename_not_empty sku) as Ne.
  unfold Pathlib.joinpath.
  apply String.eqb_neq in Ne, Hd. rewrite Ne, Hd. cbn [orb].
  apply String.eqb_neq in Ne.
  rewrite (with_suffix_replaces dir _ _ (guess_extension_range url _) Ne).
  cbn [requests]. fold file. rewrite Hw.
  unfold print, emit. cbn [stdin requests trace]. now rewrite <- !app_assoc.
Qed.

(** The part of the naming rule the code keeps: a SKU whose sanitized
    name has no suffix in the sense of [pathlib] is written under that
    name followed by the inferred extension. *)
Lemma download_names_file_after_sku w url dir sku st resp :
  http w (requests st) (download_request url) = Reply resp ->
  status_ok resp ->
  Pathlib.suffix (safe_filename sku) = ""%string ->
  safe_filename sku <> "."%string ->
  let file := (safe_filename sku
               ++ guess_extension url (content_type resp))%string in
  write_error w (S (requests st)) (dir ++ [file]) = None ->
  writes (trace (snd (download_image w url
                        (Pathlib.joinpath dir (safe_filename sku)) st)))
  = writes (trace st) ++ [(dir ++ [file], body resp)].
Proof.
  intros H Hok Hs Hd file Hw. unfold file in Hw.
  rewrite <- (stem_without_suffix _ Hs) in Hw at 1.
  rewrite (download_names_file_after_stem w url dir sku st resp H Hok Hd Hw).
  cbn [snd trace]. rewrite writes_app, (stem_without_suffix _ Hs). reflexivity.
Qed.

Example download_names_file_after_sku_example :
  let w := sample_world [] sample_page five_candidates jpeg_image in
  writes (trace (snd (download_image w "http://img/1.png"
                        (Pathlib.joinpath ["downloaded_images"]
                                          (safe_filename "A/B C*D"))
                        (initial []))))
  = [(["downloaded_images"; "A_B_C_D.jpg"], "JFIF")].
Proof. reflexivity. Qed.

(** C1. The file written for an accepted product is not always named by
    the sanitized SKU followed by the extension: [with_suffix] replaces
    what follows the last dot of the name.  The SKU [ABC.123], accepted
    with a jpeg answer, is written as [ABC.jpg], not [ABC.123.jpg]; the
    SKU [.] is written as [downloaded_images.jpg], beside the output
    directory. *)
Theorem dotted_sku_loses_its_tail :
  let run sku :=
    main (sample_world [[CStr sku; CStr "Widget"]] sample_page
                       five_candidates jpeg_image)
         sample_args (initial ["y"]) in
  fst (run "ABC.123") = Returned 0
  /\ safe_filename "ABC.123" = "ABC.123"
  /\ guess_extension "http://img/1.png" (Some "image/jpeg") = ".jpg"
  /\ writes (trace (snd (run "ABC.123")))
     = [(["downloaded_images"; "ABC.jpg"], "JFIF")]
  /\ writes (trace (snd (run "ABC.123")))
     <> [(output_dir sample_args
            ++ [(safe_filename "ABC.123" ++ ".jpg")%string], "JFIF")]
  /\ writes (trace (snd (run ".")))
     = [(["downloaded_images.jpg"], "JFIF")].
Proof.
  cbv zeta. repeat split; try reflexivity.
  vm_compute. discriminate.
Qed.

(* ===================================================================== *)
(** * Part III: further properties of the code                           *)
(* ===================================================================== *)

(** ** Sanitized names *)

Lemma lstrip_length p s : String.length (PyStr.lstrip p s) <= String.length s.
Proof.
  induction s as [|c r IH]; simpl; [lia|]. destruct (p c); simpl; lia.
Qed.

Lemma rstrip_length p s : String.length (PyStr.rstrip p s) <= String.length s.
Proof.
  induction s as [|c r IH]; simpl; [lia|].
  destruct (PyStr.is_empty (PyStr.rstrip p r) && p c); simpl; lia.
Qed.

Lemma lstrip_same_length p s :
  String.length (PyStr.lstrip p s) = String.length s -> PyStr.lstrip p s = s.
Proof.
  destruct s as [|c r]; simpl; [reflexivity|].
  destruct (p c); [|reflexivity].
  pose proof (lstrip_length p r) as L. intros H. lia.
Qed.

Lemma strip_chars_fixed p s :
  PyStr.strip_chars p s = s -> PyStr.lstrip p s = s /\ PyStr.rstrip p s = s.
Proof.
  unfold PyStr.strip_chars. intros H.
  assert (L : PyStr.lstrip p s = s).
  { apply lstrip_same_length.
    pose proof (rstrip_length p (PyStr.lstrip p s)) as A.
    pose proof (lstrip_length p s) as B. rewrite H in A. lia. }
  split; [exact L|]. now rewrite L in H.
Qed.

Lemma lstrip_fixed_first p s c :
  PyStr.lstrip p s = s -> first_char s = Some c -> p c = false.
Proof.
  destruct s as [|d r]; simpl; [discriminate|].
  intros H E. injection E as ->. destruct (p c) eqn:P; [|reflexivity].
  pose proof (lstrip_length p r) as L. rewrite H in L. simpl in L. lia.
Qed.

Lemma rstrip_fixed_last p s c :
  PyStr.rstrip p s = s -> last_char s = Some c -> p c = false.
Proof.
  revert c. induction s as [|d r IH]; intros c; simpl; [discriminate|].
  destruct (PyStr.is_empty (PyStr.rstrip p r) && p d) eqn:E; [discriminate|].
  intros H. injection H as K. rewrite K in E.
  destruct (last_char r) as [x|] eqn:Lr.
  - intros X. injection X as ->. now apply IH.
  - intros X. injection X as ->. destruct r; [|simpl in Lr; destruct (last_char r); discriminate].
    simpl in E. exact E.
Qed.

Lemma all_chars_excludes q s c :
  all_chars q s = true -> q c = false -> PyStr.contains (String c "") s = false.
Proof.
  intros A Q. induction s as [|d r IH]; [reflexivity|].
  simpl in A. apply andb_true_iff in A as [D A].
  cbn [PyStr.contains PyStr.startswith].
  rewrite (IH A), orb_false_r, andb_true_r.
  destruct (Ascii.eqb c d) eqn:E; [|reflexivity].
  apply Ascii.eqb_eq in E. congruence.
Qed.

(** X1. Whatever the SKU, the sanitized name is not empty, is made of
    letters, digits, dots, underscores and hyphens only, neither starts
    nor ends with an underscore and holds no path separator. *)
Theorem safe_filename_is_clean (x : string) :
  safe_filename x <> ""%string
  /\ all_chars allowed (safe_filename x) = true
  /\ first_char (safe_filename x) <> Some "_"%char
  /\ last_char (safe_filename x) <> Some "_"%char
  /\ PyStr.contains "/" (safe_filename x) = false.
Proof.
  assert (Slash : all_chars allowed (safe_filename x) = true ->
                  PyStr.contains "/" (safe_filename x) = false).
  { intros A. now apply (all_chars_excludes allowed). }
  destruct (safe_filename_shape x) as [E|(T & A & S)].
  - rewrite E. repeat split; discriminate || reflexivity.
  - apply strip_chars_fixed in S as [L R].
    split; [intros C; rewrite C in T; discriminate|].
    split; [exact A|]. split; [|split; [|now apply Slash]].
    + intros C. pose proof (lstrip_fixed_first _ _ _ L C). discriminate.
    + intros C. pose proof (rstrip_fixed_last _ _ _ R C). discriminate.
Qed.

(** X2. The names sanitization leaves alone are exactly the clean ones:
    not empty, made of allowed characters, without an underscore at
    either end. *)
Theorem safe_filename_fixed_points (x : string) :
  safe_filename x = x
  <-> (x <> ""%string
       /\ all_chars allowed x = true
       /\ PyStr.strip_chars is_underscore x = x).
Proof.
  split.
  - intros E. destruct (safe_filename_shape x) as [I|(T & A & S)].
    + rewrite E in I. subst x. repeat split. discriminate.
    + rewrite E in T, A, S. repeat split; try assumption.
      intros C. subst x. discriminate.
  - intros (Ne & A & S). unfold safe_filename.
    assert (Hsp : PyStr.strip x = x).
    { apply strip_chars_none. unfold none_of.
      eapply all_chars_weaken; [|exact A].
      intros c. apply allowed_not_space. }
    rewrite Hsp, (sub_runs_fixed false x A), S.
    destruct x; [congruence|reflexivity].
Qed.

Lemma safe_filename_fixed_points_witness :
  safe_filename "AB-12_x.v2" = "AB-12_x.v2".
Proof.
  apply (proj2 (safe_filename_fixed_points "AB-12_x.v2")).
  repeat split. discriminate.
Defined.

(** ** The prompt *)

Lemma reprompts_cons q l junk :
  reprompts q (l :: junk) = [Input q; Print PleaseAnswer] ++ reprompts q junk.
Proof. reflexivity. Qed.

Lemma prompt_loop_skips q junk lines tr :
  Forall (fun l => recognized l = false) junk ->
  prompt_loop q (junk ++ lines) tr
  = prompt_loop q lines (tr ++ reprompts q junk).
Proof.
  intros F. revert tr. induction F as [|l junk Hl _ IH]; intros tr.
  - simpl. now rewrite app_nil_r.
  - cbn [app prompt_loop]. unfold recognized in Hl.
    apply orb_false_iff in Hl as [Y N]. rewrite Y, N, IH.
    now rewrite reprompts_cons, app_assoc.
Qed.

(** X3. [prompt_yes_no] passes over every line it does not recognize,
    answering each with the reminder, and returns what the first
    recognized line decides; the lines after that one are left unread. *)
Theorem prompt_yes_no_skips_unrecognized
  (q : string) (junk : list string) (l : string) (rest : list string)
  (n : nat) (tr : list event) :
  Forall (fun x => recognized x = false) junk ->
  recognized l = true ->
  prompt_yes_no q {| stdin := junk ++ l :: rest; requests := n; trace := tr |}
  = (Ok (decision l),
     {| stdin := rest; requests := n;
        trace := tr ++ reprompts q junk ++ [Input q] |}).
Proof.
  intros F R. unfold prompt_yes_no. cbn [stdin trace requests].
  rewrite (prompt_loop_skips q junk (l :: rest) tr F).
  cbn [prompt_loop]. unfold recognized in R. unfold decision.
  destruct (PyStr.mem (answer_of l) ["y"; "yes"]).
  - now rewrite <- app_assoc.
  - cbn [orb] in R. rewrite R. now rewrite <- app_assoc.
Qed.

Lemma prompt_yes_no_skips_unrecognized_witness :
  prompt_yes_no question
    {| stdin := ["maybe"; ""; " No "; "y"]; requests := 0; trace := [] |}
  = (Ok false,
     {| stdin := ["y"]; requests := 0;
        trace := [Input question; Print PleaseAnswer;
                  Input question; Print PleaseAnswer;
                  Input question] |}).
Proof.
  apply (prompt_yes_no_skips_unrecognized question ["maybe"; ""] " No " ["y"]
           0 []).
  - repeat constructor.
  - reflexivity.
Defined.

Lemma prompt_loop_runs_out q lines tr :
  Forall (fun x => recognized x = false) lines ->
  prompt_loop q lines tr
  = (Raise EOFError, [], tr ++ reprompts q lines ++ [Input q]).
Proof.
  intros F. rewrite <- (app_nil_r lines) at 1.
  rewrite (prompt_loop_skips q lines [] tr F). cbn [prompt_loop].
  now rewrite <- app_assoc.
Qed.

(** X4. When no line left on standard input is recognized, the prompt
    reads them all, asks once more and ends with [EOFError]. *)
Theorem prompt_yes_no_end_of_input
  (q : string) (lines : list string) (n : nat) (tr : list event) :
  Forall (fun x => recognized x = false) lines ->
  prompt_yes_no q {| stdin := lines; requests := n; trace := tr |}
  = (Raise EOFError,
     {| stdin := []; requests := n;
        trace := tr ++ reprompts q lines ++ [Input q] |}).
Proof.
  intros F. unfold prompt_yes_no. cbn [stdin trace requests].
  now rewrite (prompt_loop_runs_out q lines tr F).
Qed.

Lemma prompt_yes_no_end_of_input_witness :
  prompt_yes_no question
    {| stdin := ["yep"; "nope"]; requests := 0; trace := [] |}
  = (Raise EOFError,
     {| stdin := []; requests := 0;
        trace := [Input question; Print PleaseAnswer;
                  Input question; Print PleaseAnswer;
                  Input question] |}).
Proof.
  apply (prompt_yes_no_end_of_input question ["yep"; "nope"] 0 []).
  repeat constructor.
Defined.

Lemma isspace_lower_char c :
  PyStr.isspace (PyStr.lower_char c) = PyStr.isspace c.
Proof. destruct c as [[] [] [] [] [] [] [] []]; reflexivity. Qed.

Lemma lower_lstrip s :
  PyStr.lower (PyStr.lstrip PyStr.isspace s)
  = PyStr.lstrip PyStr.isspace (PyStr.lower s).
Proof.
  induction s as [|c r IH]; [reflexivity|].
  cbn [PyStr.lstrip PyStr.lower]. rewrite isspace_lower_char.
  destruct (PyStr.isspace c); [exact IH|reflexivity].
Qed.

Lemma is_empty_lower s : PyStr.is_empty (PyStr.lower s) = PyStr.is_empty s.
Proof. now destruct s. Qed.

Lemma lower_rstrip s :
  PyStr.lower (PyStr.rstrip PyStr.isspace s)
  = PyStr.rstrip PyStr.isspace (PyStr.lower s).
Proof.
  induction s as [|c r IH]; [reflexivity|].
  cbn [PyStr.rstrip PyStr.lower].
  rewrite isspace_lower_char, <- IH, is_empty_lower.
  now destruct (PyStr.is_empty (PyStr.rstrip PyStr.isspace r)
                && PyStr.isspace c).
Qed.

(** The answer is the trimmed lowering of the line as well. *)
Lemma answer_of_lower l : answer_of l = PyStr.strip (PyStr.lower l).
Proof.
  unfold answer_of, PyStr.strip, PyStr.strip_chars.
  now rewrite lower_rstrip, lower_lstrip.
Qed.

Lemma lstrip_pad p pad s :
  all_chars p pad = true -> PyStr.lstrip p (pad ++ s) = PyStr.lstrip p s.
Proof.
  induction pad as [|c pad IH]; simpl; [reflexivity|].
  intros A. apply andb_true_iff in A as [C A]. now rewrite C, IH.
Qed.

Lemma lstrip_all p pad : all_chars p pad = true -> PyStr.lstrip p pad = ""%string.
Proof.
  induction pad as [|c pad IH]; simpl; [reflexivity|].
  intros A. apply andb_true_iff in A as [C A]. now rewrite C, IH.
Qed.

Lemma rstrip_all p pad : all_chars p pad = true -> PyStr.rstrip p pad = ""%string.
Proof.
  induction pad as [|c pad IH]; simpl; [reflexivity|].
  intros A. apply andb_true_iff in A as [C A]. now rewrite (IH A), C.
Qed.

Lemma rstrip_pad p pad s :
  all_chars p pad = true -> PyStr.rstrip p (s ++ pad) = PyStr.rstrip p s.
Proof.
  intros A. induction s as [|c r IH]; simpl.
  - now apply rstrip_all.
  - now rewrite IH.
Qed.

Lemma strip_chars_pad p pad1 pad2 s :
  all_chars p pad1 = true -> all_chars p pad2 = true ->
  PyStr.strip_chars p (pad1 ++ s ++ pad2) = PyStr.strip_chars p s.
Proof.
  intros A1 A2. unfold PyStr.strip_chars. rewrite (lstrip_pad p pad1 _ A1).
  induction s as [|c r IH].
  - cbn [append]. now rewrite (lstrip_all p pad2 A2).
  - cbn [append PyStr.lstrip]. destruct (p c); [exact IH|].
    change (String c (r ++ pad2)) with (String c r ++ pad2)%string.
    now apply rstrip_pad.
Qed.

(** X5. What the prompt makes of a line depends neither on the case of
    its letters nor on blanks around it. *)
Theorem answer_ignores_case_and_padding (pad1 pad2 l l' : string) :
  all_chars PyStr.isspace pad1 = true ->
  all_chars PyStr.isspace pad2 = true ->
  PyStr.lower l' = PyStr.lower l ->
  answer_of (pad1 ++ l' ++ pad2) = answer_of l
  /\ recognized (pad1 ++ l' ++ pad2) = recognized l
  /\ decision (pad1 ++ l' ++ pad2) = decision l.
Proof.
  intros A1 A2 E.
  assert (K : answer_of (pad1 ++ l' ++ pad2) = answer_of l).
  { unfold answer_of, PyStr.strip.
    rewrite (strip_chars_pad PyStr.isspace pad1 pad2 l' A1 A2).
    change (answer_of l' = answer_of l).
    now rewrite !answer_of_lower, E. }
  unfold recognized, decision. now rewrite K.
Qed.

Lemma answer_ignores_case_and_padding_witness :
  answer_of ("  " ++ "YeS" ++ " ") = answer_of "yes".
Proof.
  apply (answer_ignores_case_and_padding "  " " " "yes" "YeS");
    reflexivity.
Defined.

(** ** The token *)

Lemma token_match_here_unique opening closing s t b t' b' :
  token_match opening closing s "" t b ->
  token_match opening closing s "" t' b' -> t = t'.
Proof.
  intros M M'.
  assert (E : match_token opening closing s = Some t)
    by (apply match_token_spec; now exists b).
  assert (E' : match_token opening closing s = Some t')
    by (apply match_token_spec; now exists b').
  congruence.
Qed.

Lemma search_token_spec opening closing s t :
  search_token opening closing s = Some t
  <-> leftmost_token opening closing s t.
Proof.
  unfold leftmost_token. revert t. induction s as [|c s IH]; intros t.
  - cbn [search_token]. destruct (match_token opening closing "") as [x|] eqn:E.
    + apply match_token_spec in E as (b & M). split.
      * intros H. injection H as <-. exists "", b. split; [exact M|].
        intros; simpl; lia.
      * intros (a & b' & M' & _). f_equal.
        destruct a; [|destruct M' as (C & _); discriminate].
        eapply token_match_here_unique; eassumption.
    + split; [discriminate|]. intros (a & b & M & _). exfalso.
      destruct a; [|destruct M as (C & _); discriminate].
      assert (X : match_token opening closing "" = Some t)
        by (apply match_token_spec; now exists b).
      congruence.
  - cbn [search_token].
    destruct (match_token opening closing (String c s)) as [x|] eqn:E.
    + apply match_token_spec in E as (b & M). split.
      * intros H. injection H as <-. exists "", b. split; [exact M|].
        intros; simpl; lia.
      * intros (a & b' & M' & Least). f_equal.
        specialize (Least _ _ _ M). simpl in Least.
        destruct a; [|simpl in Least; lia].
        eapply token_match_here_unique; eassumption.
    + rewrite IH. split.
      * intros (a & b & M & Least). exists (String c a), b.
        split; [now apply token_match_tail|].
        intros [|d a'] t' b' M'.
        -- exfalso.
           assert (X : match_token opening closing (String c s) = Some t')
             by (apply match_token_spec; now exists b').
           congruence.
        -- simpl. apply le_n_S. apply (Least a' t' b').
           destruct M' as (E' & H'). injection E' as -> ->. now split.
      * intros (a & b & M & Least). destruct a as [|d a].
        -- exfalso.
           assert (X : match_token opening closing (String c s) = Some t)
             by (apply match_token_spec; now exists b).
           congruence.
        -- destruct M as (E' & H'). injection E' as -> ->.
           exists a, b. split; [now split|].
           intros a' t' b' M'.
           specialize (Least _ _ _ (token_match_tail _ _ d _ _ _ _ M')).
           simpl in Least. lia.
Qed.

Lemma leftmost_token_unique opening closing s t t' :
  leftmost_token opening closing s t -> leftmost_token opening closing s t' ->
  t = t'.
Proof.
  intros H H'. apply search_token_spec in H, H'. congruence.
Qed.

Lemma extract_vqd_spec text t : extract_vqd text = Some t <-> page_token text t.
Proof.
  unfold extract_vqd, page_token.
  destruct (search_token "vqd='" "'" text) as [x|] eqn:E.
  - split.
    + intros H. injection H as <-. left. now apply search_token_spec.
    + intros [H|[N _]].
      * apply search_token_spec in H. congruence.
      * apply search_token_none in N. congruence.
  - rewrite search_token_spec. split.
    + intros H. right. split; [now apply search_token_none|exact H].
    + intros [H|[_ H]]; [|exact H].
      apply search_token_spec in H. congruence.
Qed.

Lemma get_vqd_answered w query st resp :
  answered w (requests st) (root_request query) resp ->
  get_vqd w query st
  = (match extract_vqd (body resp) with
     | Some t => Ok t
     | None => Raise token_missing
     end,
     {| stdin := stdin st; requests := S (requests st);
        trace := trace st ++ [Get (root_request query)] |}).
Proof.
  intros [H Hok]. unfold get_vqd, extract_vqd.
  rewrite (get_checked_ok w _ st resp H Hok).
  destruct (search_token "vqd='" "'" (body resp)); [reflexivity|].
  now destruct (search_token "vqd=" "&" (body resp)).
Qed.

Lemma get_checked_refused w req st e :
  refused w (requests st) req e ->
  get_checked w req st
  = (Raise e, {| stdin := stdin st; requests := S (requests st);
                 trace := trace st ++ [Get req] |}).
Proof.
  unfold get_checked, session_get.
  intros [(reason & -> & ->)|(resp & -> & B & ->)]; [reflexivity|].
  assert (T : ((400 <=? status resp) && (status resp <? 600))%nat = true).
  { apply andb_true_iff. split; [apply Nat.leb_le|apply Nat.ltb_lt]; lia. }
  now rewrite T.
Qed.

(** Every request is either answered or refused, not both. *)
Lemma answered_or_refused w n req :
  (exists resp, answered w n req resp) \/ (exists e, refused w n req e).
Proof.
  unfold answered, refused, status_ok.
  destruct (http w n req) as [reason|resp] eqn:H.
  - right. exists (RequestException reason). left. now exists reason.
  - destruct (Nat.lt_ge_cases (status resp) 400) as [L|L].
    + left. exists resp. split; [reflexivity|now left].
    + destruct (Nat.lt_ge_cases (status resp) 600) as [U|U].
      * right. exists (HTTPError (status resp)). right. exists resp.
        repeat split; assumption.
      * left. exists resp. split; [reflexivity|now right].
Qed.

Lemma answered_not_refused w n req resp e :
  answered w n req resp -> refused w n req e -> False.
Proof.
  unfold answered, refused, status_ok.
  intros [H S] [(reason & C & _)|(resp' & C & B & _)]; [congruence|].
  rewrite H in C. injection C as <-. lia.
Qed.

(** X6. On a root page that is served, [get_vqd] returns the leftmost
    quoted token, or the leftmost unquoted one when the page has no
    quoted one, and raises exactly when the page has neither; it issues
    its one request in either case. *)
Theorem get_vqd_returns_the_page_token
  (w : world) (query : string) (st : state) (resp : response) :
  answered w (requests st) (root_request query) resp ->
  (forall t, fst (get_vqd w query st) = Ok t <-> page_token (body resp) t)
  /\ (fst (get_vqd w query st) = Raise token_missing
      <-> forall t, ~ page_token (body resp) t)
  /\ snd (get_vqd w query st)
     = {| stdin := stdin st; requests := S (requests st);
          trace := trace st ++ [Get (root_request query)] |}.
Proof.
  intros A. rewrite (get_vqd_answered w query st resp A). cbn [fst snd].
  split; [|split; [|reflexivity]].
  - intros t. rewrite <- extract_vqd_spec.
    destruct (extract_vqd (body resp)); split; congruence.
  - destruct (extract_vqd (body resp)) as [x|] eqn:E.
    + split; [discriminate|]. intros H. exfalso.
      apply (H x). now apply extract_vqd_spec.
    + split; [|reflexivity]. intros _ t H.
      apply extract_vqd_spec in H. congruence.
Qed.

Lemma get_vqd_returns_the_page_token_witness :
  let w := sample_world [] sample_page five_candidates jpeg_image in
  fst (get_vqd w "widget" (initial [])) = Ok "4-1234"
  <-> page_token (body sample_page) "4-1234".
Proof.
  intros w.
  assert (A : answered w (requests (initial [])) (root_request "widget")
                       sample_page).
  { split; [reflexivity|]. left. simpl. lia. }
  apply (proj1 (get_vqd_returns_the_page_token w "widget" (initial [])
                  sample_page A)).
Defined.

(** ** The search *)

Lemma get_vqd_refused w query st e :
  refused w (requests st) (root_request query) e ->
  get_vqd w query st
  = (Raise e, {| stdin := stdin st; requests := S (requests st);
                 trace := trace st ++ [Get (root_request query)] |}).
Proof.
  intros R. unfold get_vqd. now rewrite (get_checked_refused w _ st e R).
Qed.

Lemma get_vqd_state w query st :
  snd (get_vqd w query st)
  = {| stdin := stdin st; requests := S (requests st);
       trace := trace st ++ [Get (root_request query)] |}.
Proof.
  destruct (answered_or_refused w (requests st) (root_request query))
    as [(resp & A)|(e & R)].
  - now rewrite (get_vqd_answered w query st resp A).
  - now rewrite (get_vqd_refused w query st e R).
Qed.

Lemma get_checked_ok_at w r lines n tr resp :
  http w n r = Reply resp -> status_ok resp ->
  get_checked w r {| stdin := lines; requests := n; trace := tr |}
  = (Ok resp, {| stdin := lines; requests := S n; trace := tr ++ [Get r] |}).
Proof.
  intros H Hok.
  exact (get_checked_ok w r {| stdin := lines; requests := n; trace := tr |}
           resp H Hok).
Qed.

Lemma get_checked_refused_at w r lines n tr e :
  refused w n r e ->
  get_checked w r {| stdin := lines; requests := n; trace := tr |}
  = (Raise e, {| stdin := lines; requests := S n; trace := tr ++ [Get r] |}).
Proof.
  intros R.
  exact (get_checked_refused w r
           {| stdin := lines; requests := n; trace := tr |} e R).
Qed.

(** The image query, once the token is there. *)
Lemma fetch_with_token w query max st t :
  fst (get_vqd w query st) = Ok t ->
  fetch_image_results w query max st
  = let st1 := {| stdin := stdin st; requests := S (requests st);
                  trace := trace st ++ [Get (root_request query)] |} in
    let (r, st2) := get_checked w (images_request query t) st1 in
    match r with
    | Raise e => (Raise e, st2)
    | Ok resp => (read_results max resp, st2)
    end.
Proof.
  intros H. unfold fetch_image_results.
  pose proof (get_vqd_state w query st) as S.
  destruct (get_vqd w query st) as [r st1]. cbn [fst snd] in *. now subst.
Qed.

Lemma fetch_without_token w query max st e :
  fst (get_vqd w query st) = Raise e ->
  fetch_image_results w query max st
  = (Raise e, {| stdin := stdin st; requests := S (requests st);
                 trace := trace st ++ [Get (root_request query)] |}).
Proof.
  intros H. unfold fetch_image_results.
  pose proof (get_vqd_state w query st) as S.
  destruct (get_vqd w query st) as [r st1]. cbn [fst snd] in *. now subst.
Qed.

(** X7. The search issues the root request and then, exactly when a
    token was found, the image request for the same query with that
    token; it reads nothing from the operator and writes nothing. *)
Theorem fetch_image_results_requests
  (w : world) (query : string) (max : Z) (st : state) :
  let ev := match fst (get_vqd w query st) with
            | Ok t => [Get (root_request query);
                       Get (images_request query t)]
            | Raise _ => [Get (root_request query)]
            end in
  snd (fetch_image_results w query max st)
  = {| stdin := stdin st;
       requests := requests st + List.length ev;
       trace := trace st ++ ev |}
  /\ writes ev = [] /\ printed ev = [].
Proof.
  destruct (fst (get_vqd w query st)) as [t|e] eqn:V; cbn zeta;
    (split; [|split; reflexivity]).
  - rewrite (fetch_with_token w query max st t V). cbn zeta.
    destruct (answered_or_refused w (S (requests st)) (images_request query t))
      as [(resp & [H Hok])|(e & R)].
    + rewrite (get_checked_ok_at w _ _ _ _ resp H Hok).
      cbn [snd stdin requests trace List.length].
      now rewrite <- app_assoc, Nat.add_comm.
    + rewrite (get_checked_refused_at w _ _ _ _ e R).
      cbn [snd stdin requests trace List.length].
      now rewrite <- app_assoc, Nat.add_comm.
  - rewrite (fetch_without_token w query max st e V).
    cbn [snd List.length]. now rewrite Nat.add_comm.
Qed.

(** X8. The ways the search fails: the root request is refused; the
    page carries no token; the image request is refused; the results of
    its answer cannot be read, the body being no JSON, the JSON no
    object, or the results no list.  Nothing else makes it raise. *)
Theorem fetch_image_results_failures
  (w : world) (query : string) (max : Z) (st : state) (e : exn) :
  fst (fetch_image_results w query max st) = Raise e
  <-> refused w (requests st) (root_request query) e
      \/ (exists page,
             answered w (requests st) (root_request query) page
             /\ (forall t, ~ page_token (body page) t)
             /\ e = token_missing)
      \/ (exists page t,
             answered w (requests st) (root_request query) page
             /\ page_token (body page) t
             /\ refused w (S (requests st)) (images_request query t) e)
      \/ (exists page t resp,
             answered w (requests st) (root_request query) page
             /\ page_token (body page) t
             /\ answered w (S (requests st)) (images_request query t) resp
             /\ json_results resp = None
             /\ e = json_failure resp).
Proof.
  split.
  - destruct (answered_or_refused w (requests st) (root_request query))
      as [(page & A)|(x & R)].
    + pose proof (get_vqd_answered w query st page A) as V.
      destruct (extract_vqd (body page)) as [t|] eqn:X.
      * assert (P : page_token (body page) t) by now apply extract_vqd_spec.
        rewrite (fetch_with_token w query max st t) by now rewrite V.
        cbn zeta.
        destruct (answered_or_refused w (S (requests st))
                    (images_request query t)) as [(resp & [H Hok])|(y & R)].
        -- rewrite (get_checked_ok_at w _ _ _ _ resp H Hok).
           cbn [fst]. rewrite read_results_spec.
           destruct (json_results resp) eqn:J; [discriminate|].
           intros E. injection E as <-. right. right. right.
           exists page, t, resp.
           exact (conj A (conj P (conj (conj H Hok) (conj J eq_refl)))).
        -- rewrite (get_checked_refused_at w _ _ _ _ y R). cbn [fst].
           intros E. injection E as <-. right. right. left.
           exists page, t. exact (conj A (conj P R)).
      * rewrite (fetch_without_token w query max st token_missing)
          by now rewrite V.
        intros E. injection E as <-. right. left. exists page.
        split; [exact A|]. split; [|reflexivity].
        intros t P. apply extract_vqd_spec in P. congruence.
    + rewrite (fetch_without_token w query max st x)
        by now rewrite (get_vqd_refused w query st x R).
      intros E. injection E as <-. now left.
  - intros [R|[(page & A & N & ->)|[(page & t & A & P & R)
                                   |(page & t & resp & A & P & [H Hok] & J & ->)]]].
    + rewrite (fetch_without_token w query max st e); [reflexivity|].
      now rewrite (get_vqd_refused w query st e R).
    + rewrite (fetch_without_token w query max st token_missing);
        [reflexivity|].
      rewrite (get_vqd_answered w query st page A).
      destruct (extract_vqd (body page)) as [t|] eqn:X; [|reflexivity].
      exfalso. apply (N t). now apply extract_vqd_spec.
    + apply extract_vqd_spec in P.
      rewrite (fetch_with_token w query max st t)
        by now rewrite (get_vqd_answered w query st page A), P.
      cbn zeta. now rewrite (get_checked_refused_at w _ _ _ _ e R).
    + apply extract_vqd_spec in P.
      rewrite (fetch_with_token w query max st t)
        by now rewrite (get_vqd_answered w query st page A), P.
      cbn zeta. rewrite (get_checked_ok_at w _ _ _ _ resp H Hok).
      cbn [fst]. now rewrite read_results_spec, J.
Qed.

Lemma fetch_image_results_failures_witness :
  let listing := {| status := 200; content_type := Some "application/json";
                    body := "[]"; json := Some JOther |} in
  let w := {| input_file := None;
              http := fun n _ => if Nat.eqb n 0 then Reply sample_page
                                 else Reply listing;
              write_error := fun _ _ => None |} in
  fst (fetch_image_results w "widget" 5 (initial [])) = Raise AttributeError.
Proof.
  intros listing w.
  apply (proj2 (fetch_image_results_failures w "widget" 5 (initial [])
                  AttributeError)).
  right. right. right. exists sample_page, "4-1234", listing.
  split; [split; [reflexivity|left; simpl; lia]|].
  split; [apply extract_vqd_spec; reflexivity|].
  split; [split; [reflexivity|left; simpl; lia]|].
  split; reflexivity.
Defined.

Lemma gets_only ev :
  Forall is_get ev ->
  List.length (gets ev) = List.length ev
  /\ writes ev = [] /\ printed ev = [] /\ shown ev = []
  /\ candidates_printed ev = [].
Proof.
  induction 1 as [|e ev He _ (G & W & P & S & C)]; [now repeat split|].
  destruct e; try contradiction. simpl. now rewrite G.
Qed.

(** What the search leaves behind: one or two requests, nothing else. *)
Lemma fetch_image_results_events w query max st :
  exists ev,
    snd (fetch_image_results w query max st)
    = {| stdin := stdin st; requests := requests st + List.length ev;
         trace := trace st ++ ev |}
    /\ Forall is_get ev /\ 1 <= List.length ev <= 2.
Proof.
  destruct (fst (get_vqd w query st)) as [t|e] eqn:V.
  - exists [Get (root_request query); Get (images_request query t)].
    split; [|split; [repeat constructor|simpl; lia]].
    rewrite (fetch_with_token w query max st t V). cbn zeta.
    destruct (answered_or_refused w (S (requests st)) (images_request query t))
      as [(resp & [H Hok])|(e & R)].
    + rewrite (get_checked_ok_at w _ _ _ _ resp H Hok).
      cbn [snd List.length]. now rewrite <- app_assoc, Nat.add_comm.
    + rewrite (get_checked_refused_at w _ _ _ _ e R).
      cbn [snd List.length]. now rewrite <- app_assoc, Nat.add_comm.
  - exists [Get (root_request query)].
    split; [|split; [repeat constructor|simpl; lia]].
    rewrite (fetch_without_token w query max st e V).
    cbn [snd List.length]. now rewrite Nat.add_comm.
Qed.

Lemma fetch_ok_slice w query max st results :
  fst (fetch_image_results w query max st) = Ok results ->
  exists t resp l,
    answered w (S (requests st)) (images_request query t) resp
    /\ json_results resp = Some l
    /\ results = slice_to max l.
Proof.
  destruct (fst (get_vqd w query st)) as [t|e] eqn:V.
  - rewrite (fetch_with_token w query max st t V). cbn zeta.
    destruct (answered_or_refused w (S (requests st)) (images_request query t))
      as [(resp & [H Hok])|(e & R)].
    + rewrite (get_checked_ok_at w _ _ _ _ resp H Hok).
      cbn [fst]. rewrite read_results_spec.
      destruct (json_results resp) as [l|] eqn:J; [|discriminate].
      intros E. injection E as <-. exists t, resp, l.
      exact (conj (conj H Hok) (conj J eq_refl)).
    + rewrite (get_checked_refused_at w _ _ _ _ e R). discriminate.
  - rewrite (fetch_without_token w query max st e V). discriminate.
Qed.

Lemma firstn_length_again {A} k (l : list A) :
  firstn (List.length (firstn k l)) l = firstn k l.
Proof.
  rewrite length_firstn.
  destruct (Nat.le_ge_cases k (List.length l)) as [L|L].
  - now rewrite Nat.min_l.
  - rewrite Nat.min_r by exact L. rewrite !firstn_all2; [reflexivity|lia|lia].
Qed.

(** X9. The results the search returns are the first ones of the
    provider's list, in its order: as many as [max_results] when that
    is not negative and the list is that long; a negative [max_results]
    raises no error and drops that many results from the end. *)
Theorem fetch_image_results_truncates
  (w : world) (query : string) (max : Z) (st : state)
  (results : list search_result) :
  fst (fetch_image_results w query max st) = Ok results ->
  exists t resp l,
    answered w (S (requests st)) (images_request query t) resp
    /\ json_results resp = Some l
    /\ results = firstn (List.length results) l
    /\ ((0 <= max)%Z ->
        List.length results = Nat.min (Z.to_nat max) (List.length l))
    /\ ((max < 0)%Z ->
        List.length results = List.length l - Z.to_nat (- max)).
Proof.
  intros H. destruct (fetch_ok_slice w query max st results H)
    as (t & resp & l & A & J & ->).
  exists t, resp, l. split; [exact A|]. split; [exact J|].
  unfold slice_to. destruct (max <? 0)%Z eqn:M.
  - apply Z.ltb_lt in M. split; [now rewrite firstn_length_again|].
    split; [lia|]. intros _. rewrite length_firstn. lia.
  - apply Z.ltb_ge in M. split; [now rewrite firstn_length_again|].
    split; [|lia]. intros _. now rewrite length_firstn.
Qed.

Lemma fetch_image_results_truncates_witness :
  let w := sample_world [] sample_page five_candidates jpeg_image in
  exists t resp l,
    answered w 1 (images_request "widget" t) resp
    /\ json_results resp = Some l
    /\ firstn 4 five_candidates = firstn 4 l
    /\ ((0 <= -1)%Z -> 4 = Nat.min (Z.to_nat (-1)) (List.length l))
    /\ ((-1 < 0)%Z -> 4 = List.length l - Z.to_nat (- (-1))).
Proof.
  intros w.
  apply (fetch_image_results_truncates w "widget" (-1) (initial [])
           (firstn 4 five_candidates)).
  reflexivity.
Defined.

(** ** What a run can do *)

Lemma talk_quiet ev : Forall talk ev -> gets ev = [] /\ writes ev = [].
Proof.
  induction 1 as [|e ev He _ (G & W)]; [now split|].
  destruct e; try contradiction; simpl; now split.
Qed.

Lemma presenting_talk ev : Forall presenting ev -> Forall talk ev.
Proof.
  apply Forall_impl. intros [l|l|q|r|p|p c]; try contradiction; try easy.
Qed.

Lemma prompt_loop_trace q lines :
  forall tr, exists ev,
    snd (prompt_loop q lines tr) = tr ++ ev /\ Forall talk ev.
Proof.
  induction lines as [|l lines IH]; intros tr; cbn [prompt_loop].
  - exists [Input q]. split; [reflexivity|repeat constructor].
  - destruct (PyStr.mem (answer_of l) ["y"; "yes"]).
    + exists [Input q]. split; [reflexivity|repeat constructor].
    + destruct (PyStr.mem (answer_of l) ["n"; "no"]).
      * exists [Input q]. split; [reflexivity|repeat constructor].
      * destruct (IH (tr ++ [Input q; Print PleaseAnswer])) as (ev & -> & F).
        exists ([Input q; Print PleaseAnswer] ++ ev).
        split; [now rewrite app_assoc|].
        apply Forall_app. split; [repeat constructor|exact F].
Qed.

Lemma prompt_yes_no_trace q lines n tr :
  exists r lines' ev,
    prompt_yes_no q {| stdin := lines; requests := n; trace := tr |}
    = (r, {| stdin := lines'; requests := n; trace := tr ++ ev |})
    /\ Forall talk ev.
Proof.
  unfold prompt_yes_no. cbn [stdin requests trace].
  destruct (prompt_loop_trace q lines tr) as (ev & E & F).
  destruct (prompt_loop q lines tr) as [[r lines'] tr']. cbn [snd] in E.
  subst tr'. now exists r, lines', ev.
Qed.

(** The selector on any input: it only talks, until an acceptance; an
    acceptance adds one request and at most one file. *)
Lemma review_effects w a sku total results :
  forall index st,
  exists ev,
    trace (snd (review w a sku total index results st)) = trace st ++ ev
    /\ requests (snd (review w a sku total index results st))
       = requests st + List.length (gets ev)
    /\ match fst (review w a sku total index results st) with
       | Ok true => List.length (gets ev) = 1 /\ List.length (writes ev) <= 1
       | _ => gets ev = [] /\ writes ev = []
       end.
Proof.
  induction results as [|r results IH]; intros index [lines n tr].
  - exists []. cbn. rewrite app_nil_r. repeat split. lia.
  - cbn [review]. destruct (presentable r); cbn [negb];
      [|exact (IH (S index) _)].
    destruct (present_events total index r n tr lines) as (ev0 & -> & F0 & _).
    apply presenting_talk, talk_quiet in F0 as (G0 & W0).
    destruct (prompt_yes_no_trace question lines n (tr ++ ev0))
      as (res & lines' & ev1 & -> & F1).
    apply talk_quiet in F1 as (G1 & W1).
    destruct res as [[|]|e].
    + destruct (download_image_events w (image_of r)
                  (Pathlib.joinpath (output_dir a) (safe_filename sku))
                  {| stdin := lines'; requests := n;
                     trace := (tr ++ ev0) ++ ev1 |})
        as (res & ev2 & -> & G2 & _ & _ & Shape).
      cbn [stdin requests trace].
      destruct res as [[]|exc].
      * destruct Shape as (p & content & ->).
        exists (ev0 ++ ev1 ++ Get (download_request (image_of r))
                    :: [WriteBytes p content; Print (Saved p)]).
        cbn [fst snd trace requests]. rewrite <- !app_assoc.
        rewrite !gets_app, !writes_app, G0, G1, W0, W1. cbn.
        repeat split; lia.
      * subst ev2.
        exists (ev0 ++ ev1 ++ [Get (download_request (image_of r));
                               Print (DownloadFailed exc)]).
        unfold print, emit. cbn [fst snd trace requests stdin].
        rewrite <- !app_assoc.
        rewrite !gets_app, !writes_app, G0, G1, W0, W1. cbn.
        repeat split; lia.
    + destruct (IH (S index) {| stdin := lines'; requests := n;
                                trace := (tr ++ ev0) ++ ev1 |})
        as (ev & T & R & K).
      destruct (review w a sku total (S index) results _) as [res st'].
      cbn [fst snd trace requests] in *.
      exists (ev0 ++ ev1 ++ ev).
      rewrite T, R, <- !app_assoc, !gets_app, !writes_app, G0, G1, W0, W1.
      cbn [app]. repeat split. exact K.
    + exists (ev0 ++ ev1). cbn [fst snd trace requests].
      rewrite <- !app_assoc, !gets_app, !writes_app, G0, G1, W0, W1.
      cbn. repeat split. lia.
Qed.

Ltac tally :=
  repeat rewrite ?gets_app, ?writes_app, ?length_app;
  cbn [gets writes flat_map app List.length].

Lemma process_row_effects w a si ni n row st :
  exists ev,
    trace (snd (process_row w a si ni n row st)) = trace st ++ ev
    /\ requests (snd (process_row w a si ni n row st))
       = requests st + List.length (gets ev)
    /\ List.length (gets ev) <= 3
    /\ List.length (writes ev) <= 1
    /\ (forall e, fst (process_row w a si ni n row st) = Raise e ->
                  writes ev = []).
Proof.
  unfold process_row.
  destruct (negb (cell_truthy (cell_at si row))
            || negb (cell_truthy (cell_at ni row))).
  - exists [Print (SkippingRow n)]. cbn. repeat split; try lia.
  - set (sku := PyStr.strip (cell_str (cell_at si row))).
    set (name := PyStr.strip (cell_str (cell_at ni row))).
    destruct (fetch_image_results_events w name (max_results a)
                (print (Searching sku name) st)) as (ev1 & E1 & F1 & L1).
    destruct (gets_only ev1 F1) as (G1 & W1 & _).
    destruct (fetch_image_results w name (max_results a)
                (print (Searching sku name) st)) as [[results|exc] st2];
      cbn [snd] in E1; subst st2;
      unfold print, emit; cbn [stdin requests trace].
    + destruct results as [|r results].
      * exists ([Print (Searching sku name)] ++ ev1 ++ [Print NoResults]).
        unfold print, emit. cbn [fst snd trace requests stdin].
        rewrite <- !app_assoc. tally. rewrite W1. cbn [app List.length].
        repeat split; try lia; try discriminate.
      * set (st2 := {| stdin := stdin st;
                       requests := requests st + List.length ev1;
                       trace := (trace st ++ [Print (Searching sku name)])
                                ++ ev1 |}).
        destruct (review_effects w a sku (List.length (r :: results))
                    (r :: results) 1 st2) as (ev2 & T & R & K).
        destruct (review w a sku (List.length (r :: results)) 1
                    (r :: results) st2) as [[b|e] st3];
          cbn [fst snd] in T, R, K; subst st2; cbn [trace requests] in T, R.
        -- exists ([Print (Searching sku name)] ++ ev1 ++ ev2
                   ++ (if negb b then [Print NoSelection] else [])).
           destruct b; cbn [negb fst snd]; unfold print, emit;
             cbn [trace requests stdin]; rewrite T, ?R, <- ?app_assoc;
             rewrite ?app_nil_r;
             tally; rewrite W1; destruct K as (K1 & K2);
             rewrite ?K1, ?K2; cbn [app List.length];
             repeat split; try lia; try discriminate.
        -- exists ([Print (Searching sku name)] ++ ev1 ++ ev2).
           cbn [fst snd]. rewrite T, R, <- ?app_assoc. tally. rewrite W1.
           destruct K as (K1 & K2). rewrite K1, K2. cbn [app List.length].
           repeat split; try lia.
    + exists ([Print (Searching sku name)] ++ ev1
              ++ [Print (FetchFailed sku exc)]).
      unfold print, emit. cbn [fst snd trace requests stdin].
      rewrite <- !app_assoc. tally. rewrite W1. cbn [app List.length].
      repeat split; try lia; try discriminate.
Qed.

Lemma run_rows_effects w a si ni rows :
  forall n st,
  exists ev,
    trace (snd (run_rows w a si ni n rows st)) = trace st ++ ev
    /\ List.length (writes ev) <= List.length rows
    /\ List.length (gets ev) <= 3 * List.length rows.
Proof.
  induction rows as [|row rows IH]; intros n st.
  - exists []. cbn. rewrite app_nil_r. repeat split; lia.
  - cbn [run_rows].
    destruct (process_row_effects w a si ni n row st)
      as (ev1 & T1 & _ & G1 & W1 & _).
    destruct (process_row w a si ni n row st) as [[u|e] st1];
      cbn [fst snd] in *.
    + destruct (IH (S n) st1) as (ev2 & T2 & W2 & G2).
      exists (ev1 ++ ev2). rewrite T2, T1, <- app_assoc. tally.
      repeat split; lia.
    + exists ev1. cbn [List.length]. repeat split; [exact T1|lia|lia].
Qed.

(** X10. A run writes at most one file and issues at most three
    requests for each data row of the workbook, whatever the operator
    types and the network answers. *)
Theorem run_effects_bounded (w : world) (a : args) :
  (forall si ni n rows st,
      exists ev,
        trace (snd (run_rows w a si ni n rows st)) = trace st ++ ev
        /\ List.length (writes ev) <= List.length rows
        /\ List.length (gets ev) <= 3 * List.length rows)
  /\ (forall st,
        exists ev,
          trace (snd (main w a st)) = trace st ++ ev
          /\ List.length (writes ev) <= data_rows w
          /\ List.length (gets ev) <= 3 * data_rows w).
Proof.
  split; [intros; apply run_rows_effects|].
  intros st. unfold main, data_rows.
  destruct (input_file w) as [[|first rows]|].
  - exists []. cbn. rewrite app_nil_r. repeat split; lia.
  - destruct (find_column _ sku_candidates) as [si|];
      [destruct (find_column _ name_candidates) as [ni|]|].
    + destruct (run_rows_effects w a si ni rows 2
                  (emit (Mkdir (output_dir a)) st)) as (ev & T & W & G).
      exists (Mkdir (output_dir a) :: ev).
      destruct (run_rows w a si ni 2 rows _) as [[u|e] st2];
        cbn [fst snd emit trace] in *; rewrite T, <- app_assoc;
        cbn [app gets writes flat_map]; repeat split; assumption.
    + eexists. unfold emit. cbn [snd trace]. rewrite <- app_assoc.
      split; [reflexivity|]. cbn. lia.
    + eexists. unfold emit. cbn [snd trace]. rewrite <- app_assoc.
      split; [reflexivity|]. cbn. lia.
  - eexists. unfold emit. cbn [snd trace]. split; [reflexivity|]. cbn. lia.
Qed.

(** The loop over two stretches of rows is the loop over the first,
    then, unless that one was cut short, the loop over the second with
    the numbering carried on. *)
Lemma run_rows_app w a si ni pre post :
  forall n st,
    run_rows w a si ni n (pre ++ post) st
    = match run_rows w a si ni n pre st with
      | (Ok _, st1) => run_rows w a si ni (n + List.length pre) post st1
      | (Raise e, st1) => (Raise e, st1)
      end.
Proof.
  induction pre as [|row pre IH]; intros n st.
  - cbn. now rewrite Nat.add_0_r.
  - cbn [app run_rows List.length].
    destruct (process_row w a si ni n row st) as [[u|e] st1]; [|reflexivity].
    rewrite IH. now rewrite Nat.add_succ_r.
Qed.

(** X11. The row number of the skip line is the row's number in the
    spreadsheet, the header being row 1: the row that follows [k] data
    rows is reported as row [k + 2]. *)
Theorem skipped_row_is_reported_under_its_number
  (w : world) (a : args) (st : state)
  (first : list cell) (pre : list (list cell)) (row : list cell)
  (post : list (list cell)) (si ni : nat) (st1 : state) :
  input_file w = Some (first :: pre ++ row :: post) ->
  find_column (map header_of first) sku_candidates = Some si ->
  find_column (map header_of first) name_candidates = Some ni ->
  field_missing si row \/ field_missing ni row ->
  run_rows w a si ni 2 pre (emit (Mkdir (output_dir a)) st) = (Ok tt, st1) ->
  exists ev,
    trace (snd (main w a st))
    = trace st1 ++ Print (SkippingRow (List.length pre + 2)) :: ev.
Proof.
  intros F Hs Hn M R. unfold main. rewrite F, Hs, Hn.
  rewrite (run_rows_app w a si ni pre (row :: post)), R.
  cbn [run_rows].
  assert (E : process_row w a si ni (2 + List.length pre) row st1
              = (Ok tt, print (SkippingRow (2 + List.length pre)) st1)).
  { apply skip_when_falsy.
    destruct M as [M|M]; [left|right]; now apply field_missing_falsy. }
  rewrite E.
  destruct (run_rows_effects w a si ni post (S (2 + List.length pre))
              (print (SkippingRow (2 + List.length pre)) st1))
    as (ev & T & _).
  exists ev. rewrite (Nat.add_comm (List.length pre) 2).
  destruct (run_rows w a si ni (S (2 + List.length pre)) post _)
    as [[u|e] st2]; cbn [fst snd] in *; rewrite T; unfold print, emit;
    cbn [trace]; now rewrite <- app_assoc.
Qed.

Lemma skipped_row_is_reported_under_its_number_witness :
  let rows := [[CStr "A-1"; CNone]; [CStr "A-2"; CStr "Widget"];
               [CNone; CStr "Gadget"]] in
  let w := sample_world rows page_without_token [] gone in
  exists ev,
    trace (snd (main w sample_args (initial [])))
    = [Mkdir ["downloaded_images"]; Print (SkippingRow 2);
       Print (Searching "A-2" "Widget"); Get (root_request "Widget");
       Print (FetchFailed "A-2" token_missing)]
      ++ Print (SkippingRow 4) :: ev.
Proof.
  intros rows w.
  apply (skipped_row_is_reported_under_its_number w sample_args (initial [])
           sample_header
           [[CStr "A-1"; CNone]; [CStr "A-2"; CStr "Widget"]]
           [CNone; CStr "Gadget"] [] 0 1
           {| stdin := []; requests := 1;
              trace := [Mkdir ["downloaded_images"]; Print (SkippingRow 2);
                        Print (Searching "A-2" "Widget");
                        Get (root_request "Widget");
                        Print (FetchFailed "A-2" token_missing)] |}).
  - reflexivity.
  - reflexivity.
  - reflexivity.
  - left. right. left. reflexivity.
  - reflexivity.
Defined.

(** X12. A fatal configuration touches nothing: when the input file is
    missing or a required column is not found, [main] returns 1 having
    only written to standard error; no directory is made, no request
    issued, no line read. *)
Theorem config_error_touches_nothing (w : world) (a : args) (st : state) :
  config_error w ->
  exists ev,
    main w a st
    = (Returned 1, {| stdin := stdin st; requests := requests st;
                      trace := trace st ++ ev |})
    /\ ev <> [] /\ Forall on_stderr ev.
Proof.
  unfold main, config_error.
  intros [F|(first & rows & F & C)]; rewrite F.
  - exists [PrintErr InputNotFound]. repeat split; [discriminate|].
    repeat constructor.
  - exists [PrintErr ColumnsMissing;
            PrintErr (HeadersFound (map header_of first))].
    split; [|split; [discriminate|repeat constructor]].
    unfold emit. cbn [stdin requests trace]. rewrite <- app_assoc.
    destruct C as [C|C]; rewrite C; [reflexivity|].
    now destruct (find_column (map header_of first) sku_candidates).
Qed.

Lemma config_error_touches_nothing_witness :
  let w := {| input_file := Some [[CStr "Code"; CStr "Name"]; [CStr "A"; CStr "B"]];
              http := fun _ _ => jpeg_image;
              write_error := fun _ _ => None |} in
  exists ev,
    main w sample_args (initial ["y"])
    = (Returned 1, {| stdin := ["y"]; requests := 0; trace := [] ++ ev |})
    /\ ev <> [] /\ Forall on_stderr ev.
Proof.
  intros w.
  apply (config_error_touches_nothing w sample_args (initial ["y"])).
  right. exists [CStr "Code"; CStr "Name"], [[CStr "A"; CStr "B"]].
  split; [reflexivity|]. left. reflexivity.
Defined.

(** A row whose search fails or finds nothing: one line more after the
    search, and the row is over. *)
Lemma process_row_without_candidates w a si ni n row st :
  cell_truthy (cell_at si row) = true ->
  cell_truthy (cell_at ni row) = true ->
  let sku := PyStr.strip (cell_str (cell_at si row)) in
  let name := PyStr.strip (cell_str (cell_at ni row)) in
  let found := fetch_image_results w name (max_results a)
                 (print (Searching sku name) st) in
  (forall e, fst found = Raise e ->
             process_row w a si ni n row st
             = (Ok tt, print (FetchFailed sku e) (snd found)))
  /\ (fst found = Ok [] ->
      process_row w a si ni n row st = (Ok tt, print NoResults (snd found))).
Proof.
  intros Hs Hn sku name found. unfold process_row.
  rewrite Hs, Hn. cbn [negb orb]. fold sku name found.
  destruct found as [[results|exc] st2]; cbn [fst snd]; split.
  - discriminate.
  - intros E. injection E as ->. reflexivity.
  - intros e E. injection E as ->. reflexivity.
  - discriminate.
Qed.

(** X13. Whatever makes the search fail, the row is given up without a
    prompt and without a file, on the line reporting the failure, and
    the loop goes on with the next row. *)
Theorem failed_search_aborts_only_the_row
  (w : world) (a : args) (si ni n : nat) (row : list cell)
  (rest : list (list cell)) (st : state) (e : exn) :
  cell_truthy (cell_at si row) = true ->
  cell_truthy (cell_at ni row) = true ->
  let sku := PyStr.strip (cell_str (cell_at si row)) in
  let name := PyStr.strip (cell_str (cell_at ni row)) in
  fst (fetch_image_results w name (max_results a)
         (print (Searching sku name) st)) = Raise e ->
  exists st' ev,
    process_row w a si ni n row st = (Ok tt, st')
    /\ stdin st' = stdin st
    /\ trace st' = trace st ++ Print (Searching sku name) :: ev
                   ++ [Print (FetchFailed sku e)]
    /\ Forall is_get ev /\ 1 <= List.length ev <= 2
    /\ run_rows w a si ni n (row :: rest) st
       = run_rows w a si ni (S n) rest st'.
Proof.
  intros Hs Hn sku name F.
  destruct (process_row_without_candidates w a si ni n row st Hs Hn)
    as (K & _). fold sku name in K. specialize (K e F).
  destruct (fetch_image_results_events w name (max_results a)
              (print (Searching sku name) st)) as (ev & E & G & L).
  rewrite E in K. unfold print, emit in K. cbn [stdin requests trace] in K.
  rewrite <- !app_assoc in K.
  eexists. exists ev. split; [exact K|]. cbn [stdin trace].
  repeat split; try assumption; try lia.
  cbn [run_rows]. now rewrite K.
Qed.

Lemma failed_search_aborts_only_the_row_witness :
  let row := [CStr "ABC-123"; CStr "Widget"] in
  let w := {| input_file := None; http := fun _ _ => NoReply "timed out";
              write_error := fun _ _ => None |} in
  exists st' ev,
    process_row w sample_args 0 1 2 row (initial ["y"]) = (Ok tt, st')
    /\ stdin st' = ["y"]
    /\ trace st' = [] ++ Print (Searching "ABC-123" "Widget") :: ev
                   ++ [Print (FetchFailed "ABC-123"
                                (RequestException "timed out"))]
    /\ Forall is_get ev /\ 1 <= List.length ev <= 2
    /\ run_rows w sample_args 0 1 2 [row] (initial ["y"])
       = run_rows w sample_args 0 1 3 [] st'.
Proof.
  intros row w.
  apply (failed_search_aborts_only_the_row w sample_args 0 1 2 row []
           (initial ["y"]) (RequestException "timed out")); reflexivity.
Defined.

(** X14. With [--max-results 0] no candidate is ever shown: every row
    ends without a prompt and without a file, and the loop runs to its
    end without reading a line. *)
Theorem zero_max_results_asks_nothing
  (w : world) (a : args) (si ni : nat) (rows : list (list cell)) :
  max_results a = 0%Z ->
  forall n st,
  exists st',
    run_rows w a si ni n rows st = (Ok tt, st')
    /\ stdin st' = stdin st
    /\ writes (trace st') = writes (trace st)
    /\ shown (trace st') = shown (trace st).
Proof.
  intros Z. induction rows as [|row rows IH]; intros n st.
  - now exists st.
  - cbn [run_rows].
    assert (P : exists st1,
               process_row w a si ni n row st = (Ok tt, st1)
               /\ stdin st1 = stdin st
               /\ writes (trace st1) = writes (trace st)
               /\ shown (trace st1) = shown (trace st)).
    { destruct (cell_truthy (cell_at si row)) eqn:Hs;
        [destruct (cell_truthy (cell_at ni row)) eqn:Hn|].
      - destruct (process_row_without_candidates w a si ni n row st Hs Hn)
          as (K1 & K2).
        destruct (fetch_image_results_events w
                    (PyStr.strip (cell_str (cell_at ni row))) (max_results a)
                    (print (Searching (PyStr.strip (cell_str (cell_at si row)))
                              (PyStr.strip (cell_str (cell_at ni row)))) st))
          as (ev & E & G & _).
        destruct (gets_only ev G) as (_ & W & _ & S & _).
        destruct (fst (fetch_image_results w _ _ _)) as [results|e] eqn:F.
        + destruct (fetch_ok_slice _ _ _ _ _ F) as (t & resp & l & _ & _ & R).
          rewrite Z in R. cbn in R. subst results.
          eexists. split; [exact (K2 eq_refl)|]. rewrite E.
          unfold print, emit. cbn [stdin trace].
          rewrite !writes_app, !shown_app, W, S. cbn.
          now rewrite !app_nil_r.
        + eexists. split; [exact (K1 e eq_refl)|]. rewrite E.
          unfold print, emit. cbn [stdin trace].
          rewrite !writes_app, !shown_app, W, S. cbn.
          now rewrite !app_nil_r.
      - eexists. split; [apply skip_when_falsy; now right|].
        unfold print, emit. cbn [stdin trace].
        rewrite !writes_app, !shown_app. cbn. now rewrite !app_nil_r.
      - eexists. split; [apply skip_when_falsy; now left|].
        unfold print, emit. cbn [stdin trace].
        rewrite !writes_app, !shown_app. cbn. now rewrite !app_nil_r. }
    destruct P as (st1 & -> & I1 & W1 & S1).
    destruct (IH (S n) st1) as (st' & -> & I & W & S).
    exists st'. split; [reflexivity|]. repeat split; congruence.
Qed.

Lemma zero_max_results_asks_nothing_witness :
  let rows := [[CStr "A-1"; CStr "Widget"]; [CStr "A-2"; CStr "Gadget"]] in
  let w := sample_world rows sample_page five_candidates jpeg_image in
  let a := {| output_dir := ["out"]; max_results := 0 |} in
  exists st',
    run_rows w a 0 1 2 rows (initial ["y"]) = (Ok tt, st')
    /\ stdin st' = ["y"]
    /\ writes (trace st') = []
    /\ shown (trace st') = [].
Proof.
  intros rows w a.
  apply (zero_max_results_asks_nothing w a 0 1 rows eq_refl 2 (initial ["y"])).
Defined.

(** ** The download *)

Lemma with_suffix_known dest ext :
  In ext [".jpg"; ".png"; ".gif"; ".webp"] ->
  Pathlib.with_suffix dest ext
  = if PyStr.is_empty (Pathlib.name dest) then None
    else Some (removelast dest
               ++ [(Pathlib.stem (Pathlib.name dest) ++ ext)%string]).
Proof.
  intros He. unfold Pathlib.with_suffix.
  assert (V : PyStr.contains "/" ext
              || PyStr.truthy ext && negb (PyStr.startswith "." ext)
              || String.eqb ext "." = false).
  { simpl in He. repeat destruct He as [He|He]; try contradiction;
      rewrite <- He; reflexivity. }
  now rewrite V.
Qed.

(** X15. A download issues exactly one request.  It raises, with
    nothing written and no line printed, when the request fails, when
    the destination has no name, and when the file cannot be opened for
    writing.  Otherwise it writes one file, holding the body of the
    answer, beside the destination under its stem and the inferred
    extension, and reports it. *)
Theorem download_image_writes_only_on_success
  (w : world) (url : string) (destination : Pathlib.path) (st : state) :
  let req := download_request url in
  let after := {| stdin := stdin st; requests := S (requests st);
                  trace := trace st ++ [Get req] |} in
  let target resp :=
    removelast destination
    ++ [(Pathlib.stem (Pathlib.name destination)
         ++ guess_extension url (content_type resp))%string] in
  (forall e, refused w (requests st) req e ->
             download_image w url destination st = (Raise e, after))
  /\ (forall resp,
        answered w (requests st) req resp ->
        Pathlib.name destination = ""%string ->
        download_image w url destination st = (Raise empty_name, after))
  /\ (forall resp reason,
        answered w (requests st) req resp ->
        Pathlib.name destination <> ""%string ->
        write_error w (S (requests st)) (target resp) = Some reason ->
        download_image w url destination st = (Raise (OSError reason), after))
  /\ (forall resp,
        answered w (requests st) req resp ->
        Pathlib.name destination <> ""%string ->
        write_error w (S (requests st)) (target resp) = None ->
        download_image w url destination st
        = (Ok tt, {| stdin := stdin st; requests := S (requests st);
                     trace := trace st
                              ++ [Get req;
                                  WriteBytes (target resp) (body resp);
                                  Print (Saved (target resp))] |})).
Proof.
  intros req after target. subst req after target. cbn beta.
  assert (Named : forall resp,
             Pathlib.name destination <> ""%string ->
             Pathlib.with_suffix destination
               (guess_extension url (content_type resp))
             = Some (removelast destination
                     ++ [(Pathlib.stem (Pathlib.name destination)
                          ++ guess_extension url (content_type resp))%string])).
  { intros resp N.
    rewrite (with_suffix_known _ _ (guess_extension_range url _)).
    destruct (Pathlib.name destination); [congruence|reflexivity]. }
  split; [|split; [|split]].
  - intros e R. unfold download_image.
    now rewrite (get_checked_refused w _ st e R).
  - intros resp [H Hok] N. unfold download_image.
    rewrite (get_checked_ok w _ st resp H Hok).
    now rewrite (with_suffix_known _ _ (guess_extension_range url _)), N.
  - intros resp reason [H Hok] N W. unfold download_image.
    rewrite (get_checked_ok w _ st resp H Hok), (Named resp N).
    cbn [requests]. now rewrite W.
  - intros resp [H Hok] N W. unfold download_image.
    rewrite (get_checked_ok w _ st resp H Hok), (Named resp N).
    cbn [requests]. rewrite W.
    unfold print, emit. cbn [stdin requests trace].
    now rewrite <- !app_assoc.
Qed.

Lemma download_image_writes_only_on_success_witness :
  let w := {| input_file := None; http := fun _ _ => jpeg_image;
              write_error := fun _ p =>
                if PyStr.mem "A-1.jpg" p then Some "File name too long"
                else None |} in
  download_image w "http://img/1.png" ["out"; "A-1"] (initial [])
  = (Raise (OSError "File name too long"),
     {| stdin := []; requests := 1;
        trace := [] ++ [Get (download_request "http://img/1.png")] |}).
Proof.
  intros w.
  apply (proj1 (proj2 (proj2 (download_image_writes_only_on_success w
                                "http://img/1.png" ["out"; "A-1"] (initial []))))
           {| status := 200; content_type := Some "image/jpeg";
              body := "JFIF"; json := None |} "File name too long").
  - split; [reflexivity|]. left. simpl. lia.
  - discriminate.
  - reflexivity.
Defined.

(** X16. When the operator accepts a candidate, its host answers and
    the file can be written, the selector saves the body of the answer,
    once, in the output directory, under the stem of the sanitized SKU
    and the extension inferred from the candidate's URL and the content
    type. *)
Theorem accepted_candidate_is_saved
  (w : world) (a : args) (sku : string) (total index : nat) (st : state)
  (pre post : list search_result) (r : search_result)
  (nos : list string) (yes : string) (rest : list string)
  (resp : response) :
  presentable r = true ->
  stdin st = nos ++ yes :: rest ->
  Forall says_no nos -> says_yes yes ->
  List.length nos = List.length (filter presentable pre) ->
  answered w (requests st) (download_request (image_of r)) resp ->
  safe_filename sku <> "."%string ->
  let file := (Pathlib.stem (safe_filename sku)
               ++ guess_extension (image_of r) (content_type resp))%string in
  write_error w (S (requests st)) (output_dir a ++ [file]) = None ->
  exists st' ev,
    review w a sku total index (pre ++ r :: post) st = (Ok true, st')
    /\ trace st' = trace st ++ ev
    /\ writes ev = [(output_dir a ++ [file], body resp)]
    /\ last (printed ev) NoSelection = Saved (output_dir a ++ [file]).
Proof.
  intros P Hin Hno Hyes Hlen [H Hok] Hd file Hw.
  destruct (review_first_accepted w a sku total pre r post index st
              nos yes rest P Hin Hno Hyes Hlen) as (ev & Fev & _ & ->).
  rewrite (download_names_file_after_stem w (image_of r) (output_dir a) sku
             {| stdin := rest; requests := requests st;
                trace := trace st ++ ev |} resp H Hok Hd Hw).
  fold file. destruct (presenting_quiet ev Fev) as (_ & W & _).
  eexists. eexists. split; [reflexivity|]. cbn [trace]. rewrite <- app_assoc.
  split; [reflexivity|]. split.
  - rewrite writes_app, W. reflexivity.
  - rewrite printed_app.
    change (printed [Get (download_request (image_of r));
                     WriteBytes (output_dir a ++ [file]) (body resp);
                     Print (Saved (output_dir a ++ [file]))])
      with ([] ++ [Saved (output_dir a ++ [file])]).
    rewrite app_nil_l. apply last_last.
Qed.

Lemma accepted_candidate_is_saved_witness :
  let w := sample_world [] sample_page five_candidates jpeg_image in
  exists st' ev,
    review w sample_args "A.1/B" 2 1
           ([candidate "http://img/1.png"] ++ candidate "http://img/5" :: [])
           (initial ["no"; "yes"]) = (Ok true, st')
    /\ trace st' = trace (initial ["no"; "yes"]) ++ ev
    /\ writes ev = [(["downloaded_images"; "A.jpg"], "JFIF")]
    /\ last (printed ev) NoSelection = Saved ["downloaded_images"; "A.jpg"].
Proof.
  intros w.
  apply (accepted_candidate_is_saved w sample_args "A.1/B" 2 1
           (initial ["no"; "yes"]) [candidate "http://img/1.png"] []
           (candidate "http://img/5") ["no"] "yes" []
           {| status := 200; content_type := Some "image/jpeg";
              body := "JFIF"; json := None |}).
  - reflexivity.
  - reflexivity.
  - constructor; [right; reflexivity|constructor].
  - right. reflexivity.
  - reflexivity.
  - split; [reflexivity|]. left. simpl. lia.
  - discriminate.
  - reflexivity.
Defined.

(** ** Numbering of the candidates *)

Lemma candidates_printed_app t u :
  candidates_printed (t ++ u) = candidates_printed t ++ candidates_printed u.
Proof. apply flat_map_app. Qed.

Lemma present_lines total index r n tr lines :
  exists ev,
    (if PyStr.truthy (source_of r)
     then print (Source (source_of r))
            (print (Candidate index total (image_of r))
               {| stdin := lines; requests := n; trace := tr |})
     else print (Candidate index total (image_of r))
            {| stdin := lines; requests := n; trace := tr |})
    = {| stdin := lines; requests := n; trace := tr ++ ev |}
    /\ candidates_printed ev = [Candidate index total (image_of r)].
Proof.
  destruct (PyStr.truthy (source_of r)).
  - exists [Print (Candidate index total (image_of r));
            Print (Source (source_of r))].
    unfold print, emit. cbn [stdin requests trace]. now rewrite <- app_assoc.
  - now exists [Print (Candidate index total (image_of r))].
Qed.

(** X17. A candidate is shown under the number of its place in the
    result list and with the length of the whole list, results without
    an image included: after a result without an image the numbers
    skip. *)
Theorem candidates_keep_their_place_numbers
  (w : world) (a : args) (sku : string) (total : nat)
  (results : list search_result) :
  forall index st nos rest,
    stdin st = nos ++ rest ->
    Forall says_no nos ->
    List.length nos = List.length (filter presentable results) ->
    exists ev,
      review w a sku total index results st
      = (Ok false, {| stdin := rest; requests := requests st;
                      trace := trace st ++ ev |})
      /\ candidates_printed ev = candidate_lines total index results.
Proof.
  induction results as [|r results IH]; intros index [lines n tr] nos rest;
    cbn [stdin requests trace]; intros Hin Hno Hlen.
  - destruct nos; [|discriminate]. simpl in Hin. subst lines.
    exists []. now rewrite app_nil_r.
  - cbn [review filter candidate_lines] in *.
    destruct (presentable r) eqn:P; cbn [negb].
    + destruct nos as [|l nos]; [discriminate|].
      simpl in Hin. subst lines. inversion Hno as [|? ? Hl Hno']; subst.
      destruct (present_lines total index r n tr (l :: nos ++ rest))
        as (ev & -> & Cev).
      rewrite (prompt_no _ l _ _ _ Hl).
      destruct (IH (S index)
                  {| stdin := nos ++ rest; requests := n;
                     trace := (tr ++ ev) ++ [Input question] |}
                  nos rest eq_refl Hno') as (ev' & -> & Cev').
      { simpl in Hlen. lia. }
      exists (ev ++ [Input question] ++ ev'). cbn [stdin requests trace].
      rewrite <- !app_assoc. split; [reflexivity|].
      rewrite !candidates_printed_app, Cev, Cev'. reflexivity.
    + apply (IH (S index) {| stdin := lines; requests := n; trace := tr |}
               nos rest Hin Hno Hlen).
Qed.

Lemma candidates_keep_their_place_numbers_witness :
  let w := sample_world [] sample_page [] jpeg_image in
  let results := [candidate "http://img/1.png";
                  {| r_image := None; r_title := Some "no image";
                     r_url := Some "http://page" |};
                  candidate "http://img/3.png"] in
  exists ev,
    review w sample_args "A-1" 3 1 results (initial ["n"; "no"; "y"])
    = (Ok false, {| stdin := ["y"]; requests := 0; trace := [] ++ ev |})
    /\ candidates_printed ev
       = [Candidate 1 3 "http://img/1.png"; Candidate 3 3 "http://img/3.png"].
Proof.
  intros w results.
  apply (candidates_keep_their_place_numbers w sample_args "A-1" 3 results 1
           (initial ["n"; "no"; "y"]) ["n"; "no"] ["y"]).
  - reflexivity.
  - constructor; [left; reflexivity|].
    constructor; [right; reflexivity|constructor].
  - reflexivity.
Defined.

(** ** The column found *)

Lemma index_some x l i : PyStr.index x l = Some i -> nth_error l i = Some x.
Proof.
  revert i. induction l as [|y r IH]; intros i; simpl; [discriminate|].
  destruct (String.eqb x y) eqn:E.
  - apply String.eqb_eq in E. intros H. injection H as <-. now subst.
  - destruct (PyStr.index x r) as [j|]; [|discriminate].
    intros H. injection H as <-. now apply IH.
Qed.

Lemma first_exact_some lowered candidates i :
  first_exact lowered candidates = Some i ->
  exists c, In c candidates /\ nth_error lowered i = Some c.
Proof.
  induction candidates as [|c cs IH]; simpl; [discriminate|].
  destruct (PyStr.mem c lowered).
  - intros H. exists c. split; [now left|now apply index_some].
  - intros H. destruct (IH H) as (d & Hd & N). exists d. now split; [right|].
Qed.

(** X18. A column [find_column] answers exists, and its lowered header
    holds one of the candidates; so a header cell that is empty is never
    taken for the SKU or the name column. *)
Theorem find_column_sound
  (headers candidates : list string) (i : nat) :
  find_column headers candidates = Some i ->
  i < List.length headers
  /\ (exists h, nth_error headers i = Some h
                /\ holds_candidate candidates (PyStr.lower h))
  /\ (forall first,
        headers = map header_of first ->
        candidates = sku_candidates \/ candidates = name_candidates ->
        exists v, nth_error first i = Some v /\ v <> CNone /\ v <> CStr "").
Proof.
  intros F.
  assert (K : exists h, nth_error headers i = Some h
                        /\ holds_candidate candidates (PyStr.lower h)).
  { unfold find_column in F.
    destruct (first_exact (map PyStr.lower headers) candidates) as [j|] eqn:E.
    - injection F as ->. apply first_exact_some in E as (c & Hc & N).
      rewrite nth_error_map in N.
      destruct (nth_error headers i) as [h|]; [|discriminate].
      injection N as <-. exists h. split; [reflexivity|].
      exists (PyStr.lower h). split; [exact Hc|apply equal_is_substring].
    - apply first_containing_spec in F as (j & -> & (y & N & Hy) & _).
      cbn [Nat.add]. rewrite nth_error_map in N.
      destruct (nth_error headers j) as [h|]; [|discriminate].
      injection N as <-. now exists h. }
  destruct K as (h & N & H).
  split; [apply nth_error_Some; congruence|].
  split; [now exists h|].
  intros first -> C. rewrite nth_error_map in N.
  destruct (nth_error first i) as [v|]; [|discriminate].
  injection N as <-. exists v. split; [reflexivity|].
  assert (E : header_of v <> ""%string).
  { intros Z. rewrite Z in H. destruct H as (c & Hc & (x & y & S)).
    destruct x; [|discriminate]. cbn in S.
    destruct c; [|discriminate].
    destruct C as [->| ->]; simpl in Hc;
      repeat destruct Hc as [Hc|Hc]; try discriminate; contradiction. }
  split; intros ->; apply E; reflexivity.
Qed.

Lemma find_column_sound_witness :
  2 < List.length ["Qty"; ""; "Our SKU code"]
  /\ (exists h, nth_error ["Qty"; ""; "Our SKU code"] 2 = Some h
                /\ holds_candidate sku_candidates (PyStr.lower h)).
Proof.
  destruct (find_column_sound ["Qty"; ""; "Our SKU code"] sku_candidates 2
              eq_refl) as (L & H & _).
  now split.
Defined.

(** ** Names that collide *)

Lemma lstrip_split p s :
  exists pad, s = (pad ++ PyStr.lstrip p s)%string /\ all_chars p pad = true.
Proof.
  induction s as [|c r (pad & E & A)]; [now exists ""|].
  cbn [PyStr.lstrip]. destruct (p c) eqn:P.
  - exists (String c pad). cbn. now rewrite <- E, P, A.
  - now exists "".
Qed.

Lemma rstrip_split p s :
  exists pad, s = (PyStr.rstrip p s ++ pad)%string /\ all_chars p pad = true.
Proof.
  induction s as [|c r (pad & E & A)]; [now exists ""|].
  cbn [PyStr.rstrip].
  destruct (PyStr.is_empty (PyStr.rstrip p r) && p c) eqn:X.
  - apply andb_true_iff in X as [X P].
    destruct (PyStr.rstrip p r); [|discriminate]. cbn in E. subst r.
    exists (String c pad). cbn. now rewrite P, A.
  - exists pad. cbn. now rewrite <- E.
Qed.

Lemma space_not_allowed c : PyStr.isspace c = true -> allowed c = false.
Proof.
  destruct (allowed c) eqn:A; [|reflexivity].
  apply allowed_not_space in A. intros S. rewrite S in A. discriminate.
Qed.

(** A stretch of characters outside the class leaves at most one
    underscore. *)
Lemma sub_runs_outside b pad :
  all_chars (fun c => negb (allowed c)) pad = true ->
  all_chars is_underscore (sub_runs b pad) = true
  /\ sub_runs true pad = ""%string.
Proof.
  revert b. induction pad as [|c pad IH]; intros b; [now split|].
  cbn [all_chars sub_runs]. intros A. apply andb_true_iff in A as [C A].
  apply negb_true_iff in C. rewrite C.
  destruct (IH true A) as (_ & T). rewrite T.
  split; [now destruct b|reflexivity].
Qed.

Lemma sub_runs_pad_right b s pad :
  all_chars (fun c => negb (allowed c)) pad = true ->
  exists t, sub_runs b (s ++ pad) = (sub_runs b s ++ t)%string
            /\ all_chars is_underscore t = true.
Proof.
  intros A. revert b. induction s as [|c r IH]; intros b.
  - exists (sub_runs b pad). split; [reflexivity|].
    now apply sub_runs_outside.
  - cbn [append sub_runs]. destruct (allowed c).
    + destruct (IH false) as (t & -> & U). now exists t.
    + destruct b.
      * destruct (IH true) as (t & -> & U). now exists t.
      * destruct (IH true) as (t & -> & U). now exists t.
Qed.

(** Inside a run or not, the text after the first underscores is the
    same. *)
Lemma lstrip_sub_runs b s :
  PyStr.lstrip is_underscore (sub_runs b s)
  = PyStr.lstrip is_underscore (sub_runs false s).
Proof.
  destruct b; [|reflexivity]. destruct s as [|c r]; [reflexivity|].
  cbn [sub_runs]. now destruct (allowed c).
Qed.

Lemma sub_runs_pad_left pad s :
  all_chars (fun c => negb (allowed c)) pad = true ->
  PyStr.lstrip is_underscore (sub_runs false (pad ++ s))
  = PyStr.lstrip is_underscore (sub_runs false s).
Proof.
  destruct pad as [|c pad]; [reflexivity|].
  cbn [all_chars append sub_runs]. intros A.
  apply andb_true_iff in A as [C A]. apply negb_true_iff in C. rewrite C.
  change (PyStr.lstrip is_underscore (sub_runs true (pad ++ s))
          = PyStr.lstrip is_underscore (sub_runs false s)).
  rewrite <- (lstrip_sub_runs true s).
  clear C c. induction pad as [|c pad IH]; [reflexivity|].
  cbn [all_chars append sub_runs] in *.
  apply andb_true_iff in A as [C A]. apply negb_true_iff in C. rewrite C.
  now apply IH.
Qed.

(** The blanks [strip()] takes away would have gone with the
    underscores anyway. *)
Lemma safe_filename_without_strip x :
  PyStr.strip_chars is_underscore (sub_runs false (PyStr.strip x))
  = PyStr.strip_chars is_underscore (sub_runs false x).
Proof.
  assert (Out : forall pad, all_chars PyStr.isspace pad = true ->
                  all_chars (fun c => negb (allowed c)) pad = true).
  { intros pad. apply all_chars_weaken. intros c S.
    now rewrite (space_not_allowed c S). }
  unfold PyStr.strip.
  change (PyStr.strip_chars PyStr.isspace x)
    with (PyStr.rstrip PyStr.isspace (PyStr.lstrip PyStr.isspace x)).
  destruct (lstrip_split PyStr.isspace x) as (pad1 & E1 & A1).
  destruct (rstrip_split PyStr.isspace (PyStr.lstrip PyStr.isspace x))
    as (pad2 & E2 & A2).
  remember (PyStr.lstrip PyStr.isspace x) as y eqn:Hy.
  remember (PyStr.rstrip PyStr.isspace y) as z eqn:Hz.
  clear Hy Hz.
  transitivity (PyStr.strip_chars is_underscore (sub_runs false y)).
  - rewrite E2.
    destruct (sub_runs_pad_right false z pad2 (Out pad2 A2)) as (t & -> & U).
    symmetry.
    exact (strip_chars_pad is_underscore "" t (sub_runs false z) eq_refl U).
  - rewrite E1. unfold PyStr.strip_chars.
    now rewrite (sub_runs_pad_left pad1 y (Out pad1 A1)).
Qed.

Lemma sub_runs_same_outside b x y c d :
  allowed c = false -> allowed d = false ->
  sub_runs b (x ++ String c y) = sub_runs b (x ++ String d y).
Proof.
  intros C D. revert b. induction x as [|e x IH]; intros b.
  - cbn [append sub_runs]. now rewrite C, D.
  - cbn [append sub_runs]. destruct (allowed e); [now rewrite IH|].
    destruct b; now rewrite IH.
Qed.

(** X19. Sanitization does not tell the characters outside the class
    apart: two SKUs that differ in one such character are written under
    the same name. *)
Theorem safe_filename_collides (x y : string) (c d : ascii) :
  allowed c = false -> allowed d = false ->
  safe_filename (x ++ String c y) = safe_filename (x ++ String d y).
Proof.
  intros C D. unfold safe_filename.
  now rewrite !safe_filename_without_strip, (sub_runs_same_outside _ x y c d C D).
Qed.

Lemma safe_filename_collides_witness :
  safe_filename ("AB" ++ String "/" "12") = safe_filename ("AB" ++ String " " "12").
Proof.
  apply (safe_filename_collides "AB" "12" "/" " "); reflexivity.
Defined.

(** ** More on the extension *)

Lemma lower_char_idem c : PyStr.lower_char (PyStr.lower_char c) = PyStr.lower_char c.
Proof. destruct c as [[] [] [] [] [] [] [] []]; reflexivity. Qed.

Lemma lower_idem s : PyStr.lower (PyStr.lower s) = PyStr.lower s.
Proof.
  induction s as [|c r IH]; [reflexivity|].
  cbn [PyStr.lower]. now rewrite lower_char_idem, IH.
Qed.

Lemma lower_drop n s : PyStr.lower (PyStr.drop n s) = PyStr.drop n (PyStr.lower s).
Proof.
  revert s. induction n as [|n IH]; intros [|c r]; try reflexivity.
  cbn [PyStr.drop PyStr.lower]. apply IH.
Qed.

Lemma lower_char_marks c :
  Ascii.eqb (PyStr.lower_char c) "?" = Ascii.eqb c "?"
  /\ Ascii.eqb (PyStr.lower_char c) newline = Ascii.eqb c newline
  /\ Ascii.eqb (PyStr.lower_char c) "." = Ascii.eqb c ".".
Proof. destruct c as [[] [] [] [] [] [] [] []]; repeat split. Qed.

Lemma at_end_or_query_lower s :
  at_end_or_query (PyStr.lower s) = at_end_or_query s.
Proof.
  destruct s as [|c r]; [reflexivity|]. cbn [PyStr.lower at_end_or_query].
  destruct (lower_char_marks c) as (Q & N & _).
  now rewrite Q, N, is_empty_lower.
Qed.

Lemma match_alt_lower alt rest :
  match_alt alt (PyStr.lower rest) = option_map PyStr.lower (match_alt alt rest).
Proof.
  unfold match_alt.
  rewrite lower_idem, <- lower_drop, at_end_or_query_lower, <- lower_take.
  now destruct (PyStr.startswith alt (PyStr.lower rest)
                && at_end_or_query (PyStr.drop (String.length alt) rest)).
Qed.

Lemma match_alts_lower alts rest :
  match_alts alts (PyStr.lower rest)
  = option_map PyStr.lower (match_alts alts rest).
Proof.
  induction alts as [|alt more IH]; [reflexivity|].
  cbn [match_alts]. rewrite match_alt_lower, IH.
  now destruct (match_alt alt rest).
Qed.

Lemma search_ext_lower s :
  search_ext (PyStr.lower s) = option_map PyStr.lower (search_ext s).
Proof.
  induction s as [|c r IH]; [reflexivity|].
  cbn [PyStr.lower search_ext match_ext_here].
  destruct (lower_char_marks c) as (_ & _ & D). rewrite D.
  destruct (Ascii.eqb c ".").
  - rewrite match_alts_lower.
    destruct (match_alts ext_alternatives r); [reflexivity|exact IH].
  - exact IH.
Qed.

(** X20. For a URL of characters below code point 256, the strings of
    this development, the extension read off the URL does not depend on
    the case of the URL's letters. *)
Theorem guess_extension_ignores_url_case
  (url url' : string) (content_type : option string) :
  PyStr.lower url' = PyStr.lower url ->
  guess_extension url' content_type = guess_extension url content_type.
Proof.
  intros E. unfold guess_extension.
  destruct (extension_of_content_type content_type); [reflexivity|].
  assert (K : option_map PyStr.lower (search_ext url')
              = option_map PyStr.lower (search_ext url)).
  { now rewrite <- !search_ext_lower, E. }
  destruct (search_ext url') as [m'|], (search_ext url) as [m|];
    cbn in K; try discriminate; [|reflexivity].
  injection K as ->. reflexivity.
Qed.

Lemma guess_extension_ignores_url_case_witness :
  guess_extension "HTTP://X/IMG.Png?ID=1" None
  = guess_extension "http://x/img.png?id=1" None.
Proof.
  apply (guess_extension_ignores_url_case "http://x/img.png?id=1"
           "HTTP://X/IMG.Png?ID=1" None).
  reflexivity.
Defined.

(** X21. For a URL and a content type of characters below code point
    256, the strings of this development, the extension inferred is one
    of [.jpg], [.png], [.gif] and [.webp]. *)
Theorem guess_extension_is_known
  (url : string) (content_type : option string) :
  In (guess_extension url content_type) [".jpg"; ".png"; ".gif"; ".webp"].
Proof.
  unfold guess_extension.
  destruct (extension_of_content_type content_type) as [e|] eqn:C.
  - unfold extension_of_content_type in C.
    destruct content_type as [c|]; [|discriminate].
    destruct (PyStr.truthy c); [|discriminate].
    destruct (PyStr.contains "jpeg" c); [injection C as <-; simpl; tauto|].
    destruct (PyStr.contains "png" c); [injection C as <-; simpl; tauto|].
    destruct (PyStr.contains "webp" c); [injection C as <-; simpl; tauto|].
    destruct (PyStr.contains "gif" c); [injection C as <-; simpl; tauto|].
    discriminate.
  - destruct (search_ext url) as [m|] eqn:E; [|now left].
    apply search_ext_spec in E as (p & r & (_ & Hin & _) & _).
    unfold ext_alternatives in Hin. simpl in Hin.
    repeat destruct Hin as [Hin|Hin]; try contradiction; rewrite <- Hin;
      simpl; tauto.
Qed.

(** X23. Naming the file never fails for the suffix: with the
    extension inferred, [with_suffix] fails exactly when the destination
    has no name. *)
Theorem inferred_suffix_is_accepted
  (url : string) (content_type : option string) (destination : Pathlib.path) :
  Pathlib.with_suffix destination (guess_extension url content_type) = None
  <-> Pathlib.name destination = ""%string.
Proof.
  rewrite (with_suffix_known _ _ (guess_extension_range url content_type)).
  destruct (Pathlib.name destination); cbn [PyStr.is_empty];
    split; congruence.
Qed.

Lemma inferred_suffix_is_accepted_witness :
  Pathlib.with_suffix [] (guess_extension "http://x/a.tiff" (Some "image/tiff"))
  = None.
Proof.
  apply (proj2 (inferred_suffix_is_accepted "http://x/a.tiff"
                  (Some "image/tiff") [])).
  reflexivity.
Defined.

(** ** The end of the operator's input *)



